(** * Twitter media downloader (App.py): model and properties

    A shallow embedding of [App.py]:
    - [sanitize_filename],
    - the class [HighQualityTwitterDownloader] with its two adapters
      [download_video_max_quality] (yt-dlp) and
      [download_images_max_quality] (gallery-dl), and the orchestrating
      method [download],
    - the entry point [download_twitter_media], and
    - what a click on the fetch button does on the page.

    Python dictionaries are finite maps from keys to Python values; the
    methods run in a state-and-exception monad over a world made of the
    file system and a log of the interactions with the outside (lines
    printed, tools invoked).  The two external tools are parameters: any
    behaviour on the file system, any returned value, any raised
    exception.

    The methods are embedded at two levels.  At the first, every exception
    is an instance of [Exception], [print] returns, and the size of every
    entry that [glob] lists can be read.  At the second (module [Full])
    these are behaviours of the runtime like the tools': an exception may
    derive from [BaseException] only, [print] and [stat] may raise.  On a
    runtime where they do not, the two levels agree
    ([full_download_agrees]). *)

From Stdlib Require Import ZArith QArith String Ascii List.
From stdpp Require Import gmap strings list fin_maps fin_sets.

Local Open Scope string_scope.
Local Open Scope Z_scope.

(** ** Python values *)

(** The values stored in the dictionaries of the program.  A float is
    carried by the rational it denotes. *)
Inductive pyval : Type :=
| VNone
| VBool (b : bool)
| VInt (n : Z)
| VFloat (x : Q)
| VStr (s : string)
| VList (l : list string).

Abbreviation dict := (gmap string pyval).

(** Truth value of an object, as tested by [if] and [or]. *)
Definition truthy (v : pyval) : bool :=
  match v with
  | VNone => false
  | VBool b => b
  | VInt n => negb (n =? 0)
  | VFloat x => negb (Qnum x =? 0)
  | VStr s => negb (String.eqb s "")
  | VList l => match l with [] => false | _ => true end
  end.

(** [x or y] on strings. *)
Definition str_or (x y : string) : string :=
  if truthy (VStr x) then x else y.

(** [d.get(k)]: the value, [None] when the key is absent. *)
Definition dict_get (d : dict) (k : string) : pyval :=
  match d !! k with
  | Some v => v
  | None => VNone
  end.

(** The rational denoted by a number. *)
Definition num_of (v : pyval) : option Q :=
  match v with
  | VInt n => Some (inject_Z n)
  | VFloat x => Some x
  | _ => None
  end.

(** ** Exceptions and the monad *)

(** An instance of [Exception] (what [except Exception] catches): its class
    name and its [str()]. *)
Record exn : Type := Exn { exn_class : string; exn_str : string }.

Definition KeyError (k : string) : exn :=
  Exn "KeyError" ("'" ++ k ++ "'").
Definition TypeError_not_subscriptable : exn :=
  Exn "TypeError" "'NoneType' object is not subscriptable".
Definition FileNotFoundError (p : string) : exn :=
  Exn "FileNotFoundError" ("[Errno 2] No such file or directory: '" ++ p ++ "'").

Inductive res (A : Type) : Type :=
| Ok (a : A)
| Raise (e : exn).
Arguments Ok {A} a.
Arguments Raise {A} e.

(** The file system: the size in bytes ([st_size]) of every existing path.
    Every path in it can be sized ([Full.stat] may raise on one). *)
Abbreviation filesystem := (gmap string N).

(** What the program does to the outside. *)
Inductive event : Type :=
| EvPrint (msg : string)
| EvExtractInfo (url : string)
| EvSubprocess (cmd : list string).

Record world : Type := World { fs : filesystem; trace : list event }.

Definition M (A : Type) : Type := world -> res A * world.

Definition ret {A} (a : A) : M A := fun w => (Ok a, w).
Definition raise {A} (e : exn) : M A := fun w => (Raise e, w).
Definition bind {A B} (m : M A) (k : A -> M B) : M B :=
  fun w =>
    match m w with
    | (Ok a, w') => k a w'
    | (Raise e, w') => (Raise e, w')
    end.

(** [try: body except Exception as e: handler e], every exception being an
    instance of [Exception] ([Full.try_except] has the others). *)
Definition try_except {A} (body : M A) (handler : exn -> M A) : M A :=
  fun w =>
    match body w with
    | (Ok a, w') => (Ok a, w')
    | (Raise e, w') => handler e w'
    end.

Declare Scope py_scope.
Delimit Scope py_scope with py.
Notation "x <- c1 ;; c2" := (bind c1 (fun x => c2))
  (at level 100, c1 at next level, right associativity) : py_scope.
Notation "c1 ;;; c2" := (bind c1 (fun _ => c2))
  (at level 100, right associativity) : py_scope.

Definition lift_res {A} (r : res A) : M A := fun w => (r, w).

(** An interaction that returns; [print] is one here ([Full.print] may
    raise). *)
Definition emit (e : event) : M unit :=
  fun w => (Ok tt, World (fs w) (trace w ++ [e])).

(** [d[k]]: raises [KeyError] when the key is absent. *)
Definition dict_getitem (d : dict) (k : string) : res pyval :=
  match d !! k with
  | Some v => Ok v
  | None => Raise (KeyError k)
  end.

(** ** [sanitize_filename]

    A text is the sequence of its characters; a character beyond one byte
    stands as the bytes of its UTF-8 encoding, none of which is one of the
    nine characters below. *)

(** The nine characters of the class in the pattern: backslash, slash,
    star, question mark, colon, double quote (code 34), less-than,
    greater-than and vertical bar. *)
Definition illegal_chars : list ascii :=
  [ "\"%char; "/"%char; "*"%char; "?"%char; ":"%char;
    "034"%char; "<"%char; ">"%char; "|"%char ].

Definition in_class (cls : list ascii) (c : ascii) : bool :=
  existsb (Ascii.eqb c) cls.
Arguments in_class : simpl never.

(** [re.sub] for a pattern that is one character class: every match is one
    character of the class, and is replaced by [repl]. *)
Fixpoint re_sub_class (cls : list ascii) (repl : string) (text : string) : string :=
  match text with
  | EmptyString => EmptyString
  | String c rest =>
      if in_class cls c then repl ++ re_sub_class cls repl rest
      else String c (re_sub_class cls repl rest)
  end.

Definition sanitize_filename (text : string) : string :=
  re_sub_class illegal_chars "" text.

(** ** Numbers: true division and [round(x, 2)] *)

(** Nearest integer to [num / den] ([den > 0]), ties to the even one. *)
Definition round_half_even (num den : Z) : Z :=
  let q := num / den in
  let r := num mod den in
  if 2 * r <? den then q
  else if den <? 2 * r then q + 1
  else if Z.even q then q else q + 1.

(** [n / (1024 * 1024)] on an integer [n]: a float.  Size totals are below
    [2^53], where the quotient by [2^20] is a float exactly. *)
Definition bytes_to_mb (n : N) : pyval := VFloat (Z.of_N n # 1048576).

(** [round(x, 2)]: an int is returned as it is; a float is rounded to the
    nearest multiple of [1/100], ties to even.  [VFloat (k # 100)] stands for
    the float nearest to [k / 100]. *)
Definition py_round2 (v : pyval) : pyval :=
  match v with
  | VFloat x => VFloat (round_half_even (100 * Qnum x) (Zpos (Qden x)) # 100)
  | _ => v
  end.

(** ** The file system seen by the program *)

Fixpoint strip_prefix (pre s : string) : option string :=
  match pre, s with
  | EmptyString, _ => Some s
  | String a pre', String b s' =>
      if Ascii.eqb a b then strip_prefix pre' s' else None
  | String _ _, EmptyString => None
  end.

Fixpoint has_char (c : ascii) (s : string) : bool :=
  match s with
  | EmptyString => false
  | String a s' => Ascii.eqb a c || has_char c s'
  end.

(** [p] is the path of an entry directly inside [folder] (a folder name in
    normal form, without a trailing slash): [folder/name]. *)
Definition is_entry_of (folder p : string) : bool :=
  match strip_prefix (folder ++ "/") p with
  | Some name => negb (String.eqb name "") && negb (has_char "/"%char name)
  | None => false
  end.

(** The paths of the entries of [folder]. *)
Definition listing (folder : string) (f : filesystem) : gset string :=
  filter (fun p => is_entry_of folder p = true) (dom f).

(** [set(Path(folder).glob('*'))] *)
Definition glob_star (folder : string) : M (gset string) :=
  fun w => (Ok (listing folder (fs w)), w).

(** [os.path.exists(p)] *)
Definition path_exists (p : string) : M bool :=
  fun w => (Ok (bool_decide (is_Some (fs w !! p))), w).

(** [os.path.getsize(p)] and [Path(p).stat().st_size] *)
Definition stat_size (p : string) : M N :=
  fun w =>
    match fs w !! p with
    | Some n => (Ok n, w)
    | None => (Raise (FileNotFoundError p), w)
    end.

(** [sum(f.stat().st_size for f in files)] *)
Fixpoint sum_sizes (files : list string) : M N :=
  match files with
  | [] => ret 0%N
  | f :: rest =>
      (n <- stat_size f ;;
       total <- sum_sizes rest ;;
       ret (n + total)%N)%py
  end.

(** ** The external tools' interfaces *)

(** The options handed to [yt_dlp.YoutubeDL]. *)
Record ydl_options : Type := YdlOpts {
  outtmpl : string;
  format_selector : string;
  merge_output_format : string;
  postprocessor_args : list string;
  writethumbnail : bool;
  write_info_json : bool;
  quiet : bool;
  no_warnings : bool
}.

(** [subprocess.CompletedProcess] with captured text output. *)
Record completed_process : Type := CompletedProcess {
  returncode : Z;
  stdout : string;
  stderr : string
}.

Record downloader : Type := Downloader {
  output_folder : string;
  verbose : bool
}.

(** [self._print(message, force)] *)
Definition _print (self : downloader) (message : string) (force : bool) : M unit :=
  if verbose self || force then emit (EvPrint message) else ret tt.

Definition nl : string := String "010"%char EmptyString.

(** ** The class [HighQualityTwitterDownloader] *)

Section Downloader.

(** The interpreter's [str()], used by the f-strings. *)
Variable py_str : pyval -> string.

(** The order in which a set of paths is iterated: some enumeration of it,
    the same each time the same set is iterated. *)
Variable set_iter : gset string -> list string.

(** What the [with yt_dlp.YoutubeDL(opts) as ydl] block gets from the tool
    through [ydl.extract_info(url, download=True)]: the info dictionary (or
    [None]) or a raised exception, and the file system the tool leaves.
    Creating and closing the [YoutubeDL] object are part of it. *)
Variable extract_info :
  ydl_options -> string -> filesystem -> res (option dict) * filesystem.

(** [subprocess.run(cmd, capture_output=True, text=True, timeout=t)]: the
    completed process or a raised exception ([TimeoutExpired],
    [FileNotFoundError], ...), and the file system it leaves. *)
Variable subprocess_run :
  list string -> Z -> filesystem -> res completed_process * filesystem.

Definition ydl_extract_info (opts : ydl_options) (url : string) : M (option dict) :=
  fun w =>
    let '(r, fs') := extract_info opts url (fs w) in
    (r, World fs' (trace w ++ [EvExtractInfo url])).

Definition run_subprocess (cmd : list string) (timeout : Z) : M completed_process :=
  fun w =>
    let '(r, fs') := subprocess_run cmd timeout (fs w) in
    (r, World fs' (trace w ++ [EvSubprocess cmd])).

Definition ydl_opts (self : downloader) : ydl_options :=
  {| outtmpl := output_folder self ++ "/%(id)s_%(height)sp.%(ext)s";
     format_selector :=
       "bestvideo[ext=mp4][vcodec^=avc1]+bestaudio[ext=m4a]/" ++
       "bestvideo[ext=mp4]+bestaudio[ext=m4a]/" ++
       "bestvideo+bestaudio/" ++
       "best";
     merge_output_format := "mp4";
     postprocessor_args := ["-c:v"; "copy"; "-c:a"; "copy"];
     writethumbnail := false;
     write_info_json := false;
     quiet := true;
     no_warnings := true |}.

(** The body of the [try] of [download_video_max_quality]. *)
Definition video_body (self : downloader) (tweet_url : string) : M dict :=
  (_print self "  Downloading video..." false ;;;
   info <- ydl_extract_info (ydl_opts self) tweet_url ;;
   match info with
   | None => raise TypeError_not_subscriptable
   | Some info =>
       id <- lift_res (dict_getitem info "id") ;;
       ext <- lift_res (dict_getitem info "ext") ;;
       let filename :=
         output_folder self ++ "/" ++ py_str id ++ "_" ++
         py_str (dict_get info "height") ++ "p." ++ py_str ext in
       present <- path_exists filename ;;
       size_mb <- (if present : bool
                   then n <- stat_size filename ;; ret (bytes_to_mb n)
                   else ret (VInt 0)) ;;
       ret (list_to_map
              [ ("success", VBool true);
                ("type", VStr "video");
                ("resolution",
                  VStr (py_str (dict_get info "width") ++ "x" ++
                        py_str (dict_get info "height")));
                ("fps", dict_get info "fps");
                ("size_mb", py_round2 size_mb);
                ("filename", VStr filename) ] : dict)
   end)%py.

Definition failure (e : exn) : dict :=
  list_to_map [ ("success", VBool false); ("error", VStr (exn_str e)) ].

Definition download_video_max_quality (self : downloader) (tweet_url : string) : M dict :=
  try_except (video_body self tweet_url) (fun e => ret (failure e)).

Definition gallery_dl_cmd (self : downloader) (tweet_url : string) : list string :=
  [ "gallery-dl";
    "--destination"; output_folder self;
    "--filename"; "{category}_{tweet_id}_{num}.{extension}";
    "--quiet";
    tweet_url ].

(** The body of the [try] of [download_images_max_quality]. *)
Definition images_body (self : downloader) (tweet_url : string) : M dict :=
  (let cmd := gallery_dl_cmd self tweet_url in
   _print self "  Downloading images..." false ;;;
   before <- glob_star (output_folder self) ;;
   result <- run_subprocess cmd 120 ;;
   after <- glob_star (output_folder self) ;;
   let new_files := after ∖ before in
   if (returncode result =? 0) && negb (bool_decide (new_files = ∅)) then
     total <- sum_sizes (set_iter new_files) ;;
     ret (list_to_map
            [ ("success", VBool true);
              ("type", VStr "images");
              ("count", VInt (Z.of_nat (size new_files)));
              ("size_mb", py_round2 (bytes_to_mb total));
              ("files", VList (set_iter new_files)) ] : dict)
   else
     ret (list_to_map
            [ ("success", VBool false);
              ("error", VStr (str_or (stderr result) "No images found")) ] : dict))%py.

Definition download_images_max_quality (self : downloader) (tweet_url : string) : M dict :=
  try_except (images_body self tweet_url) (fun e => ret (failure e)).

(** [download]: the video adapter first, the image adapter when it fails.
    [d['url'] = tweet_url] updates the dictionary the adapter has just
    built, which nothing else refers to. *)
Definition download (self : downloader) (tweet_url : string) : M dict :=
  (_print self (nl ++ "Downloading: " ++ tweet_url) (negb (verbose self)) ;;;
   video_result <- download_video_max_quality self tweet_url ;;
   video_ok <- lift_res (dict_getitem video_result "success") ;;
   if truthy video_ok then
     ret (<["url" := VStr tweet_url]> video_result)
   else
     image_result <- download_images_max_quality self tweet_url ;;
     image_ok <- lift_res (dict_getitem image_result "success") ;;
     if truthy image_ok then
       ret (<["url" := VStr tweet_url]> image_result)
     else
       ret image_result)%py.

End Downloader.

(** ** Observations on outcomes and traces *)

(** The file the video adapter sizes. *)
Definition video_filename (py_str : pyval -> string)
    (self : downloader) (info : dict) (id ext : pyval) : string :=
  output_folder self ++ "/" ++ py_str id ++ "_" ++
  py_str (dict_get info "height") ++ "p." ++ py_str ext.

(** The megabytes the video adapter reports for [filename] on [f]. *)
Definition video_size_on_disk (f : filesystem) (filename : string) : pyval :=
  py_round2 (match f !! filename with
             | Some n => bytes_to_mb n
             | None => VInt 0
             end).

Definition is_success (d : dict) : Prop := d !! "success" = Some (VBool true).
Definition is_failure (d : dict) : Prop := d !! "success" = Some (VBool false).

Definition is_subprocess (e : event) : bool :=
  match e with EvSubprocess _ => true | _ => false end.

(** How many times the image tool has been started. *)
Definition image_tool_invocations (tr : list event) : nat :=
  length (List.filter is_subprocess tr).

(** The bytes held by the files of [l]. *)
Definition total_size (f : filesystem) (l : list string) : N :=
  foldr (fun p acc => (default 0%N (f !! p) + acc)%N) 0%N l.

(** The sanitizer as the specification words it: the characters of the
    text that are none of the nine, in their order. *)
Definition keep_legal (text : string) : list ascii :=
  List.filter (fun c => negb (in_class illegal_chars c)) (list_ascii_of_string text).

(** The world in which [download] calls the adapters: the banner line has
    been printed. *)
Definition announced (url : string) (w : world) : world :=
  World (fs w) (trace w ++ [EvPrint (nl ++ "Downloading: " ++ url)]).

(** [r] is [a] with one more entry, the request URL under ["url"]. *)
Definition adds_url_only (url : string) (a r : dict) : Prop :=
  ("url" ∉ dom a)
  /\ dom r = dom a ∪ {["url"]}
  /\ r !! "url" = Some (VStr url)
  /\ forall k, k ≠ "url" -> r !! k = a !! k.

(** ** A concrete runtime, for running the model *)

Fixpoint digits_of (fuel : nat) (n : N) (acc : string) : string :=
  match fuel with
  | O => acc
  | S fuel' =>
      let d := ascii_of_N (48 + n mod 10) in
      let acc' := String d acc in
      if (n / 10 =? 0)%N then acc' else digits_of fuel' (n / 10)%N acc'
  end.

Definition decimal (n : Z) : string :=
  let s := digits_of (S (N.to_nat (N.log2 (Z.to_N (Z.abs n))))) (Z.to_N (Z.abs n)) "" in
  if n <? 0 then "-" ++ s else s.

(** [str()] on [None], booleans, ints and strings, the values the fields
    read by the f-strings hold in the posts below (floats and lists are not
    formatted there and get the empty text). *)
Definition str_scalar (v : pyval) : string :=
  match v with
  | VNone => "None"
  | VBool b => if b then "True" else "False"
  | VInt n => decimal n
  | VStr s => s
  | VFloat _ => ""
  | VList _ => ""
  end.

(** ** Three posts, for running the model

    A downloader on the folder [twitter_downloads], which holds one file
    already; a post with a video; a post with two images, whose download
    also rewrites the old file; a post with nothing, on which the image
    tool exits with code zero after a library warning on its standard
    error. *)

Definition demo_self : downloader := Downloader "twitter_downloads" false.
Definition demo_url : string := "https://x.com/user/status/1".
Definition demo_world : world :=
  World {[ "twitter_downloads/old.jpg" := 5%N ]} [].

Definition demo_info : dict :=
  list_to_map
    [ ("id", VStr "42"); ("ext", VStr "mp4"); ("width", VInt 1280);
      ("height", VInt 720); ("fps", VInt 30); ("filesize_approx", VInt 999) ].

Definition video_post_tool
    (_ : ydl_options) (_ : string) (f : filesystem) : res (option dict) * filesystem :=
  (Ok (Some demo_info), <["twitter_downloads/42_720p.mp4" := 131072%N]> f).

Definition no_video_tool
    (_ : ydl_options) (_ : string) (f : filesystem) : res (option dict) * filesystem :=
  (Raise (Exn "DownloadError" "ERROR: No video could be found in this tweet"), f).

Definition image_post_tool
    (_ : list string) (_ : Z) (f : filesystem) : res completed_process * filesystem :=
  (Ok (CompletedProcess 0 "" ""),
   <["twitter_downloads/twitter_1_1.jpg" := 1048576%N]>
     (<["twitter_downloads/twitter_1_2.jpg" := 524288%N]>
        (<["twitter_downloads/old.jpg" := 7%N]> f))).

Definition demo_warning : string :=
  "RequestsDependencyWarning: urllib3 (1.26.5) or chardet (3.0.4) does not match a supported version!".

Definition warning_only_tool
    (_ : list string) (_ : Z) (f : filesystem) : res completed_process * filesystem :=
  (Ok (CompletedProcess 0 "" demo_warning), f).

Definition demo_banner : event := EvPrint (nl ++ "Downloading: " ++ demo_url).

Definition demo_video_record : dict :=
  list_to_map
    [ ("success", VBool true); ("type", VStr "video");
      ("resolution", VStr "1280x720"); ("fps", VInt 30);
      ("size_mb", VFloat (12 # 100));
      ("filename", VStr "twitter_downloads/42_720p.mp4") ].

Definition demo_world_after_video : world :=
  World (<["twitter_downloads/42_720p.mp4" := 131072%N]> (fs demo_world))
        [demo_banner; EvExtractInfo demo_url].



Definition demo_image_record : dict :=
  list_to_map
    [ ("success", VBool true); ("type", VStr "images"); ("count", VInt 2);
      ("size_mb", VFloat (150 # 100));
      ("files", VList [ "twitter_downloads/twitter_1_1.jpg";
                        "twitter_downloads/twitter_1_2.jpg" ]) ].

Definition demo_fs_after_images : filesystem :=
  <["twitter_downloads/twitter_1_1.jpg" := 1048576%N]>
    (<["twitter_downloads/twitter_1_2.jpg" := 524288%N]>
       (<["twitter_downloads/old.jpg" := 7%N]> (fs demo_world))).

Definition demo_warning_failure : dict :=
  list_to_map
    [ ("success", VBool false); ("error", VStr demo_warning) ].

(** ** Construction and the entry point [download_twitter_media] *)

Definition is_extract_info (e : event) : bool :=
  match e with EvExtractInfo _ => true | _ => false end.

(** How many times the video tool has been asked for a post. *)
Definition video_tool_invocations (tr : list event) : nat :=
  length (List.filter is_extract_info tr).


(** The trace after the video adapter: its line when verbose, the tool. *)
Definition video_trace (self : downloader) (url : string) (tr : list event) : list event :=
  (tr ++ (if verbose self then [EvPrint "  Downloading video..."] else []))
  ++ [EvExtractInfo url].

(** The trace after the image adapter: its line when verbose, the tool. *)
Definition images_trace (self : downloader) (url : string) (tr : list event) : list event :=
  (tr ++ (if verbose self then [EvPrint "  Downloading images..."] else []))
  ++ [EvSubprocess (gallery_dl_cmd self url)].


(** [d.get(k, default)] *)
Definition dict_get_default (d : dict) (k : string) (default : pyval) : pyval :=
  match d !! k with
  | Some v => v
  | None => default
  end.

(** The mark that opens every message of [download_twitter_media], as the
    source file spells it. *)
Definition error_mark : string := "âŒ ".

Section Application.

Variable py_str : pyval -> string.
Variable set_iter : gset string -> list string.
Variable extract_info :
  ydl_options -> string -> filesystem -> res (option dict) * filesystem.
Variable subprocess_run :
  list string -> Z -> filesystem -> res completed_process * filesystem.

(** [os.makedirs(path, exist_ok=True)]: returns or raises, and leaves a
    file system. *)
Variable os_makedirs : string -> filesystem -> res unit * filesystem.

Definition makedirs (path : string) : M unit :=
  fun w =>
    let '(r, fs') := os_makedirs path (fs w) in
    (r, World fs' (trace w)).

(** [HighQualityTwitterDownloader(output_folder, verbose)] *)
Definition __init__ (output_folder : string) (verbose : bool) : M downloader :=
  (makedirs output_folder ;;;
   ret {| output_folder := output_folder; verbose := verbose |})%py.

(** [download_twitter_media]: the pair [(result, error_message)], one side
    of which is [None]. *)
Definition download_twitter_media (video_url : string) : M (option dict * option string) :=
  try_except
    (downloader <- __init__ "twitter_downloads" false ;;
     result <- download py_str set_iter extract_info subprocess_run downloader video_url ;;
     ok <- lift_res (dict_getitem result "success") ;;
     if truthy ok then
       ret (Some result, None)
     else
       let error_msg := dict_get_default result "error" (VStr "Unknown error") in
       let user_friendly_error := error_mark ++ py_str error_msg in
       ret (None, Some user_friendly_error))%py
    (fun e =>
       (emit (EvPrint ("An unexpected error occurred: " ++ exn_str e)) ;;;
        let user_friendly_error :=
          error_mark ++ "An unexpected error occurred. Please try again later." in
        ret (None, Some user_friendly_error))%py).

End Application.

(** Folder creation that succeeds on a folder that is there, and one that is
    refused. *)
Definition makedirs_present (_ : string) (f : filesystem) : res unit * filesystem :=
  (Ok tt, f).


(** ** The page: what a click on the fetch button does *)

(** The bytes read from a file: where from, and how many. *)
Record blob : Type := Blob { blob_path : string; blob_len : N }.

(** The calls made to the page library, in order.  [StWith i c] is the call
    [c] made inside the [i]-th column of the last [st.columns]. *)
Inductive st_call : Type :=
| StSpinner (text : string)
| StError (body : string)
| StWarning (body : string)
| StSuccess (body : string)
| StVideo (data : blob)
| StColumns (spec : list Z)
| StColumnsN (n : nat)
| StImage (image : string)
| StWrite (text : string)
| StDownloadButton (label : string) (data : blob) (file_name mime : string)
                   (key : option string)
| StWith (column : nat) (call : st_call).

(** The page script runs on the world and on the calls made so far. *)
Record page : Type := Page { page_world : world; page_calls : list st_call }.

Definition UI (A : Type) : Type := page -> res A * page.

Definition ui_ret {A} (a : A) : UI A := fun p => (Ok a, p).
Definition ui_raise {A} (e : exn) : UI A := fun p => (Raise e, p).
Definition ui_bind {A B} (m : UI A) (k : A -> UI B) : UI B :=
  fun p =>
    match m p with
    | (Ok a, p') => k a p'
    | (Raise e, p') => (Raise e, p')
    end.

Declare Scope ui_scope.
Delimit Scope ui_scope with ui.
Notation "x <- c1 ;; c2" := (ui_bind c1 (fun x => c2))
  (at level 100, c1 at next level, right associativity) : ui_scope.
Notation "c1 ;;; c2" := (ui_bind c1 (fun _ => c2))
  (at level 100, right associativity) : ui_scope.

(** A call to the page library ([st.error], [st.image], ...): it is
    recorded, and taken to return. *)
Definition st (c : st_call) : UI unit :=
  fun p => (Ok tt, Page (page_world p) (page_calls p ++ [c])).

(** A computation of the program, run from the page. *)
Definition run {A} (m : M A) : UI A :=
  fun p => let '(r, w') := m (page_world p) in (r, Page w' (page_calls p)).

Definition ui_lift_res {A} (r : res A) : UI A := fun p => (r, p).

Definition type_name (v : pyval) : string :=
  match v with
  | VNone => "NoneType"
  | VBool _ => "bool"
  | VInt _ => "int"
  | VFloat _ => "float"
  | VStr _ => "str"
  | VList _ => "list"
  end.

Definition TypeError (msg : string) : exn := Exn "TypeError" msg.
Definition IndexError_list : exn := Exn "IndexError" "list index out of range".

(** [os.fspath(v)] *)
Definition fspath (v : pyval) : res string :=
  match v with
  | VStr p => Ok p
  | _ => Raise (TypeError ("expected str, bytes or os.PathLike object, not " ++ type_name v))
  end.

(** [os.path.exists(v)].  A number is a file descriptor to it; the records
    of the program hold none under a path key, and the model, which has no
    descriptors, answers [False]. *)
Definition os_path_exists (v : pyval) : M bool :=
  match v with
  | VStr p => path_exists p
  | VInt _ | VBool _ => ret false
  | _ => raise (TypeError ("stat: path should be string, bytes, os.PathLike or integer, not "
                           ++ type_name v))
  end.

(** [open(p, "rb").read()], on a regular file. *)
Definition read_binary (p : string) : M blob :=
  fun w =>
    match fs w !! p with
    | Some n => (Ok (Blob p n), w)
    | None => (Raise (FileNotFoundError p), w)
    end.

(** [os.remove(p)], on a regular file. *)
Definition os_remove (p : string) : M unit :=
  fun w =>
    match fs w !! p with
    | Some _ => (Ok tt, World (delete p (fs w)) (trace w))
    | None => (Raise (FileNotFoundError p), w)
    end.

(** [os.path.basename(p)]: what follows the last slash. *)
Fixpoint basename (p : string) : string :=
  match p with
  | EmptyString => EmptyString
  | String c rest =>
      if has_char "/"%char rest then basename rest
      else if Ascii.eqb c "/"%char then rest
      else p
  end.

(** [len(v)]; of a text, the number of its characters (bytes, in this
    representation of texts). *)
Definition py_len (v : pyval) : res nat :=
  match v with
  | VList l => Ok (length l)
  | VStr s => Ok (String.length s)
  | _ => Raise (TypeError ("object of type '" ++ type_name v ++ "' has no len()"))
  end.

(** The items [for ... in enumerate(v)] goes through: those of a list, the
    characters of a text. *)
Definition py_iter (v : pyval) : res (list string) :=
  match v with
  | VList l => Ok l
  | VStr s => Ok (List.map (fun c => String c EmptyString) (list_ascii_of_string s))
  | _ => Raise (TypeError ("'" ++ type_name v ++ "' object is not iterable"))
  end.

(** [l[i]] *)
Definition list_getitem {A} (l : list A) (i : nat) : res A :=
  match l !! i with
  | Some x => Ok x
  | None => Raise IndexError_list
  end.

(** [st.columns(n)]: the [n] columns, refused when [n] is not positive. *)
Definition st_columns_n (n : nat) : UI (list nat) :=
  match n with
  | O => ui_raise (Exn "StreamlitAPIException"
                       ("The input argument to st.columns must be either a " ++
                        "positive integer or a list of positive numeric weights. " ++
                        "See documentation for more information."))
  | S _ => (st (StColumnsN n) ;;; ui_ret (seq 0 n))%ui
  end.

(** [v == s] for a text [s]. *)
Definition eq_str (v : pyval) (s : string) : bool :=
  match v with
  | VStr x => String.eqb x s
  | _ => false
  end.

Section Page.

Variable py_str : pyval -> string.
Variable set_iter : gset string -> list string.
Variable extract_info :
  ydl_options -> string -> filesystem -> res (option dict) * filesystem.
Variable subprocess_run :
  list string -> Z -> filesystem -> res completed_process * filesystem.
Variable os_makedirs : string -> filesystem -> res unit * filesystem.

(** The branch [result.get('type') == 'video'] (lines 211-234). *)
Definition page_video (result : dict) (show_preview : bool) : UI unit :=
  (let video_path := dict_get result "filename" in
   present <- (if truthy video_path then run (os_path_exists video_path)
               else ui_ret false) ;;
   if present : bool then
     st (StSuccess ("âœ… Video loaded successfully! (" ++
                    py_str (dict_get result "resolution") ++ " â€¢ " ++
                    py_str (dict_get result "size_mb") ++ " MB)")) ;;;
     path <- ui_lift_res (fspath video_path) ;;
     video_bytes <- run (read_binary path) ;;
     (if show_preview then st (StVideo video_bytes) else ui_ret tt) ;;;
     st (StColumns [2; 1]) ;;;
     st (StWith 1 (StDownloadButton "Download Video" video_bytes
                     (basename path) "video/mp4" None)) ;;;
     run (os_remove path)
   else ui_ret tt)%ui.

(** The preview loop (lines 246-248). *)
Fixpoint preview_loop (cols : list nat) (idx : nat) (items : list string) : UI unit :=
  match items with
  | [] => ui_ret tt
  | img_path :: rest =>
      (col <- ui_lift_res (list_getitem cols (idx mod 3)) ;;
       st (StWith col (StImage img_path)) ;;;
       preview_loop cols (S idx) rest)%ui
  end.

(** The preview of the images (lines 245-248). *)
Definition page_preview (image_files : pyval) : UI unit :=
  (n <- ui_lift_res (py_len image_files) ;;
   cols <- st_columns_n (Nat.min n 3) ;;
   items <- ui_lift_res (py_iter image_files) ;;
   preview_loop cols 0 items)%ui.

(** The loop of the download buttons (lines 252-279). *)
Fixpoint buttons_loop (image_files : pyval) (idx : nat) (items : list string) : UI unit :=
  match items with
  | [] => ui_ret tt
  | img_path :: rest =>
      (present <- run (path_exists img_path) ;;
       (if present : bool then
          img_bytes <- run (read_binary img_path) ;;
          n <- ui_lift_res (py_len image_files) ;;
          (if (1 <? n)%nat then
             st (StColumns [3; 1]) ;;;
             st (StWith 0 (StWrite ("**Image " ++ py_str (VInt (Z.of_nat idx + 1)) ++ "**"))) ;;;
             st (StWith 1 (StDownloadButton "Download" img_bytes (basename img_path)
                             "image/jpeg"
                             (Some ("download_" ++ py_str (VInt (Z.of_nat idx))))))
           else
             st (StDownloadButton "Download Image" img_bytes (basename img_path)
                   "image/jpeg" None)) ;;;
          run (os_remove img_path)
        else ui_ret tt) ;;;
       buttons_loop image_files (S idx) rest)%ui
  end.

(** The branch [result.get('type') == 'images'] (lines 237-279). *)
Definition page_images (result : dict) (show_preview : bool) : UI unit :=
  (let image_files := dict_get_default result "files" (VList []) in
   if truthy image_files then
     st (StSuccess ("âœ… " ++ py_str (dict_get result "count") ++
                    " image(s) loaded successfully! (" ++
                    py_str (dict_get result "size_mb") ++ " MB)")) ;;;
     (if show_preview then page_preview image_files else ui_ret tt) ;;;
     st (StWrite "---") ;;;
     items <- ui_lift_res (py_iter image_files) ;;
     buttons_loop image_files 0 items
   else ui_ret tt)%ui.

(** [elif result:] and its two branches (lines 209-279). *)
Definition page_result (result : option dict) (show_preview : bool) : UI unit :=
  match result with
  | Some result =>
      if negb (bool_decide (result = ∅)) then
        if eq_str (dict_get result "type") "video" then
          page_video result show_preview
        else if eq_str (dict_get result "type") "images" then
          page_images result show_preview
        else ui_ret tt
      else ui_ret tt
  | None => ui_ret tt
  end.

(** The body of [if st.button(...)] (lines 203-281): a click, with the text
    of the input box and the state of the preview toggle. *)
Definition fetch_media_clicked (url : string) (show_preview : bool) : UI unit :=
  (if truthy (VStr url) then
     st (StSpinner "Fetching and downloading your media... Please wait.") ;;;
     answer <- run (download_twitter_media py_str set_iter extract_info
                      subprocess_run os_makedirs url) ;;
     let '(result, error_msg) := answer in
     match error_msg with
     | Some msg =>
         if truthy (VStr msg) then st (StError msg)
         else page_result result show_preview
     | None => page_result result show_preview
     end
   else st (StWarning "Please enter a Twitter/X URL."))%ui.

End Page.

(** The first call of every click with a URL. *)
Definition spinner_call : st_call :=
  StSpinner "Fetching and downloading your media... Please wait.".

(** A post whose info dictionary has no height: the tool names its file
    with [NA], the adapter looks for [None]. *)
Definition demo_info_without_height : dict :=
  list_to_map [ ("id", VStr "42"); ("ext", VStr "mp4") ].

Definition video_without_height_tool
    (_ : ydl_options) (_ : string) (f : filesystem) : res (option dict) * filesystem :=
  (Ok (Some demo_info_without_height),
   <["twitter_downloads/42_NAp.mp4" := 131072%N]> f).

Definition demo_world_after_warning : world :=
  World (fs demo_world)
        [demo_banner; EvExtractInfo demo_url;
         EvSubprocess (gallery_dl_cmd demo_self demo_url)].

(** A tool that returns an info dictionary with nothing in it. *)
Definition empty_info_tool
    (_ : ydl_options) (_ : string) (f : filesystem) : res (option dict) * filesystem :=
  (Ok (Some ∅), f).

(** ** The runtime in full

    The methods once more, on a runtime that does what the sections above
    take not to happen:
    - an exception may derive from [BaseException] only, and
      [except Exception] does not catch it;
    - [print] may raise (a text the console cannot encode, a closed
      standard output);
    - creating the [YoutubeDL] object (line 95) may raise, before the
      adapter's line is printed;
    - [stat] may raise on an entry that [glob] lists (a link whose target
      is missing).

    With none of these the methods below are the methods above
    ([full_download_agrees]). *)

(** The built-in classes that derive from [BaseException] and not from
    [Exception]. *)
Definition base_exception_only : list string :=
  [ "BaseException"; "KeyboardInterrupt"; "SystemExit"; "GeneratorExit" ].

(** [isinstance(e, Exception)] *)
Definition is_exception (e : exn) : bool :=
  negb (existsb (String.eqb (exn_class e)) base_exception_only).

(** What the program runs on.  [rt_print m] is the exception [print(m)]
    raises, if any; [rt_ydl_new opts] the one [yt_dlp.YoutubeDL(opts)]
    raises; [rt_stat f p] the one [os.stat(p)] raises on the file system [f]
    although [p] is listed there.  The two tools are as above; leaving the
    [with] block is part of [rt_extract_info]. *)
Record runtime : Type := Runtime {
  rt_str : pyval -> string;
  rt_set_iter : gset string -> list string;
  rt_print : string -> option exn;
  rt_ydl_new : ydl_options -> option exn;
  rt_extract_info :
    ydl_options -> string -> filesystem -> res (option dict) * filesystem;
  rt_subprocess_run :
    list string -> Z -> filesystem -> res completed_process * filesystem;
  rt_stat : filesystem -> string -> option exn;
  rt_makedirs : string -> filesystem -> res unit * filesystem
}.

Module Full.

Section Runtime.

Variable rt : runtime.

(** [try: body except Exception as e: handler e] *)
Definition try_except {A} (body : M A) (handler : exn -> M A) : M A :=
  fun w =>
    match body w with
    | (Ok a, w') => (Ok a, w')
    | (Raise e, w') =>
        if is_exception e then handler e w' else (Raise e, w')
    end.

(** [print(message)] *)
Definition print (message : string) : M unit :=
  match rt_print rt message with
  | Some e => raise e
  | None => emit (EvPrint message)
  end.

(** [self._print(message, force)] *)
Definition _print (self : downloader) (message : string) (force : bool) : M unit :=
  if verbose self || force then print message else ret tt.

(** [yt_dlp.YoutubeDL(opts)] *)
Definition YoutubeDL (opts : ydl_options) : M unit :=
  match rt_ydl_new rt opts with
  | Some e => raise e
  | None => ret tt
  end.

(** [os.stat(p).st_size] on the file system [f]. *)
Definition stat (p : string) (f : filesystem) : res N :=
  match rt_stat rt f p with
  | Some e => Raise e
  | None =>
      match f !! p with
      | Some n => Ok n
      | None => Raise (FileNotFoundError p)
      end
  end.

(** [os.path.exists(p)]: whether [os.stat(p)] succeeds. *)
Definition path_exists (p : string) : M bool :=
  fun w =>
    (Ok (match stat p (fs w) with Ok _ => true | Raise _ => false end), w).

(** [os.path.getsize(p)] and [Path(p).stat().st_size] *)
Definition stat_size (p : string) : M N :=
  fun w => (stat p (fs w), w).

(** [sum(f.stat().st_size for f in files)] *)
Fixpoint sum_sizes (files : list string) : M N :=
  match files with
  | [] => ret 0%N
  | f :: rest =>
      (n <- stat_size f ;;
       total <- sum_sizes rest ;;
       ret (n + total)%N)%py
  end.

(** The body of the [try] of [download_video_max_quality] (lines 95-109). *)
Definition video_body (self : downloader) (tweet_url : string) : M dict :=
  (YoutubeDL (ydl_opts self) ;;;
   _print self "  Downloading video..." false ;;;
   info <- ydl_extract_info (rt_extract_info rt) (ydl_opts self) tweet_url ;;
   match info with
   | None => raise TypeError_not_subscriptable
   | Some info =>
       id <- lift_res (dict_getitem info "id") ;;
       ext <- lift_res (dict_getitem info "ext") ;;
       let filename :=
         output_folder self ++ "/" ++ rt_str rt id ++ "_" ++
         rt_str rt (dict_get info "height") ++ "p." ++ rt_str rt ext in
       present <- path_exists filename ;;
       size_mb <- (if present : bool
                   then n <- stat_size filename ;; ret (bytes_to_mb n)
                   else ret (VInt 0)) ;;
       ret (list_to_map
              [ ("success", VBool true);
                ("type", VStr "video");
                ("resolution",
                  VStr (rt_str rt (dict_get info "width") ++ "x" ++
                        rt_str rt (dict_get info "height")));
                ("fps", dict_get info "fps");
                ("size_mb", py_round2 size_mb);
                ("filename", VStr filename) ] : dict)
   end)%py.

Definition download_video_max_quality (self : downloader) (tweet_url : string) : M dict :=
  try_except (video_body self tweet_url) (fun e => ret (failure e)).

(** The body of the [try] of [download_images_max_quality] (lines 116-146). *)
Definition images_body (self : downloader) (tweet_url : string) : M dict :=
  (let cmd := gallery_dl_cmd self tweet_url in
   _print self "  Downloading images..." false ;;;
   before <- glob_star (output_folder self) ;;
   result <- run_subprocess (rt_subprocess_run rt) cmd 120 ;;
   after <- glob_star (output_folder self) ;;
   let new_files := after ∖ before in
   if (returncode result =? 0) && negb (bool_decide (new_files = ∅)) then
     total <- sum_sizes (rt_set_iter rt new_files) ;;
     ret (list_to_map
            [ ("success", VBool true);
              ("type", VStr "images");
              ("count", VInt (Z.of_nat (size new_files)));
              ("size_mb", py_round2 (bytes_to_mb total));
              ("files", VList (rt_set_iter rt new_files)) ] : dict)
   else
     ret (list_to_map
            [ ("success", VBool false);
              ("error", VStr (str_or (stderr result) "No images found")) ] : dict))%py.

Definition download_images_max_quality (self : downloader) (tweet_url : string) : M dict :=
  try_except (images_body self tweet_url) (fun e => ret (failure e)).

(** [download] (lines 151-168); the line of 152 is printed outside every
    [try]. *)
Definition download (self : downloader) (tweet_url : string) : M dict :=
  (_print self (nl ++ "Downloading: " ++ tweet_url) (negb (verbose self)) ;;;
   video_result <- download_video_max_quality self tweet_url ;;
   video_ok <- lift_res (dict_getitem video_result "success") ;;
   if truthy video_ok then
     ret (<["url" := VStr tweet_url]> video_result)
   else
     image_result <- download_images_max_quality self tweet_url ;;
     image_ok <- lift_res (dict_getitem image_result "success") ;;
     if truthy image_ok then
       ret (<["url" := VStr tweet_url]> image_result)
     else
       ret image_result)%py.

(** [download_twitter_media] (lines 176-190); the handler prints too. *)
Definition download_twitter_media (video_url : string) : M (option dict * option string) :=
  try_except
    (downloader <- __init__ (rt_makedirs rt) "twitter_downloads" false ;;
     result <- download downloader video_url ;;
     ok <- lift_res (dict_getitem result "success") ;;
     if truthy ok then
       ret (Some result, None)
     else
       let error_msg := dict_get_default result "error" (VStr "Unknown error") in
       let user_friendly_error := error_mark ++ rt_str rt error_msg in
       ret (None, Some user_friendly_error))%py
    (fun e =>
       (print ("An unexpected error occurred: " ++ exn_str e) ;;;
        let user_friendly_error :=
          error_mark ++ "An unexpected error occurred. Please try again later." in
        ret (None, Some user_friendly_error))%py).

End Runtime.

End Full.

(** Whatever the runtime raises derives from [Exception]. *)
Definition raises_exceptions_only (rt : runtime) : Prop :=
  (forall m e, rt_print rt m = Some e -> is_exception e = true)
  /\ (forall o e, rt_ydl_new rt o = Some e -> is_exception e = true)
  /\ (forall o u f e, (rt_extract_info rt o u f).1 = Raise e -> is_exception e = true)
  /\ (forall c t f e, (rt_subprocess_run rt c t f).1 = Raise e -> is_exception e = true)
  /\ (forall f p e, rt_stat rt f p = Some e -> is_exception e = true)
  /\ (forall p f e, (rt_makedirs rt p f).1 = Raise e -> is_exception e = true).

(** Every run of [m] returns a value in [Q] or raises an exception in [E]. *)
Definition yields {A} (Q : A -> Prop) (E : exn -> Prop) (m : M A) : Prop :=
  forall w, match (m w).1 with Ok a => Q a | Raise e => E e end.

(** What an adapter returns: a success of its type or a failure with a
    message, without a ["url"] entry. *)
Definition outcome_shape (type : string) (d : dict) : Prop :=
  d !! "url" = None
  /\ ((is_success d /\ d !! "type" = Some (VStr type))
      \/ (is_failure d /\ exists msg, d !! "error" = Some (VStr msg))).

(** What [download] returns. *)
Definition discriminated (d : dict) : Prop :=
  (is_success d
   /\ (d !! "type" = Some (VStr "video") \/ d !! "type" = Some (VStr "images")))
  \/ (is_failure d /\ exists msg, d !! "error" = Some (VStr msg)).

(** The runtime of the posts: nothing fails but what the tools make fail. *)
Definition demo_runtime
    (video_tool : ydl_options -> string -> filesystem -> res (option dict) * filesystem)
    (image_tool : list string -> Z -> filesystem -> res completed_process * filesystem)
    : runtime :=
  {| rt_str := str_scalar;
     rt_set_iter := elements;
     rt_print := fun _ => None;
     rt_ydl_new := fun _ => None;
     rt_extract_info := video_tool;
     rt_subprocess_run := image_tool;
     rt_stat := fun _ _ => None;
     rt_makedirs := makedirs_present |}.

(** The user interrupts the video download. *)
Definition interrupted_tool
    (_ : ydl_options) (_ : string) (f : filesystem) : res (option dict) * filesystem :=
  (Raise (Exn "KeyboardInterrupt" ""), f).

(** The standard output is closed: every [print] raises. *)
Definition closed_stdout_runtime : runtime :=
  {| rt_str := str_scalar;
     rt_set_iter := elements;
     rt_print := fun _ => Some (Exn "ValueError" "I/O operation on closed file.");
     rt_ydl_new := fun _ => None;
     rt_extract_info := video_post_tool;
     rt_subprocess_run := image_post_tool;
     rt_stat := fun _ _ => None;
     rt_makedirs := makedirs_present |}.

(** A post on which the image tool leaves a link to a file that is not
    there: [glob] lists the link, [stat] follows it. *)
Definition dangling_link : string := "twitter_downloads/twitter_1_1.jpg".

Definition dangling_link_tool
    (_ : list string) (_ : Z) (f : filesystem) : res completed_process * filesystem :=
  (Ok (CompletedProcess 0 "" ""), <[dangling_link := 22%N]> f).

Definition dangling_link_runtime : runtime :=
  {| rt_str := str_scalar;
     rt_set_iter := elements;
     rt_print := fun _ => None;
     rt_ydl_new := fun _ => None;
     rt_extract_info := no_video_tool;
     rt_subprocess_run := dangling_link_tool;
     rt_stat := fun _ p =>
       if String.eqb p dangling_link then Some (FileNotFoundError p) else None;
     rt_makedirs := makedirs_present |}.

(** The runtime that the first part of the development reasons about: every
    line is printed, the [YoutubeDL] object is created, every listed entry
    can be sized, and what the tools raise derives from [Exception]. *)
Definition plain (rt : runtime) : Prop :=
  (forall m, rt_print rt m = None)
  /\ (forall o, rt_ydl_new rt o = None)
  /\ (forall f p, rt_stat rt f p = None)
  /\ (forall o u f e, (rt_extract_info rt o u f).1 = Raise e -> is_exception e = true)
  /\ (forall c t f e, (rt_subprocess_run rt c t f).1 = Raise e -> is_exception e = true).

(** * Properties *)

Lemma elements_perm (X : gset string) : elements X ≡ₚ elements X.
Proof. reflexivity. Qed.

(** ** The sanitizer *)

Lemma re_sub_class_empty cls text :
  list_ascii_of_string (re_sub_class cls "" text) =
  List.filter (fun c => negb (in_class cls c)) (list_ascii_of_string text).
Proof.
  induction text as [|c rest IH]; simpl; [reflexivity|].
  destruct (in_class cls c); simpl; [exact IH | now rewrite IH].
Qed.

Lemma in_class_illegal c :
  in_class illegal_chars c = true <-> In c illegal_chars.
Proof.
  unfold in_class. rewrite existsb_exists. split.
  - intros (x & Hx & Heq). apply Ascii.eqb_eq in Heq. now subst.
  - intros H. exists c. split; [exact H | apply Ascii.eqb_refl].
Qed.

(** C5: on every text, [sanitize_filename] returns exactly the characters of
    the text that are not one of the nine illegal ones, in their original
    order: none of the nine is left, every other character is kept, a text
    without them (the empty one included) is returned as it is. *)
Theorem sanitize_filename_removes_exactly_illegal :
  forall text : string,
    list_ascii_of_string (sanitize_filename text) = keep_legal text
    /\ (forall c, In c (list_ascii_of_string (sanitize_filename text)) <->
                  In c (list_ascii_of_string text) /\ ~ In c illegal_chars)
    /\ sublist (list_ascii_of_string (sanitize_filename text))
               (list_ascii_of_string text)
    /\ ((forall c, In c (list_ascii_of_string text) -> ~ In c illegal_chars) <->
        sanitize_filename text = text)
    /\ sanitize_filename "" = "".
Proof.
  intros text.
  assert (Hspec : list_ascii_of_string (sanitize_filename text) = keep_legal text)
    by apply re_sub_class_empty.
  split; [exact Hspec|]. split; [|split; [|split]].
  - intros c. rewrite Hspec. unfold keep_legal. rewrite filter_In.
    rewrite negb_true_iff, <- not_true_iff_false, in_class_illegal. tauto.
  - rewrite Hspec. unfold keep_legal.
    induction (list_ascii_of_string text) as [|c l IH]; simpl; [constructor|].
    destruct (negb _); now constructor.
  - split.
    + intros Hall.
      rewrite <- (string_of_list_ascii_of_string (sanitize_filename text)).
      rewrite <- (string_of_list_ascii_of_string text) at 2.
      f_equal. rewrite Hspec. unfold keep_legal.
      induction (list_ascii_of_string text) as [|c l IH]; simpl; [reflexivity|].
      assert (Hc : in_class illegal_chars c = false).
      { apply not_true_iff_false. rewrite in_class_illegal. apply Hall. now left. }
      rewrite Hc. simpl. f_equal. apply IH. intros x Hx. apply Hall. now right.
    + intros Heq c Hc Hbad. rewrite <- Heq in Hc. rewrite Hspec in Hc.
      unfold keep_legal in Hc. apply filter_In in Hc as [_ Hc].
      apply negb_true_iff, not_true_iff_false in Hc. apply Hc.
      now apply in_class_illegal.
  - reflexivity.
Qed.

(** ** Running the primitives *)

Lemma image_tool_invocations_app tr e :
  image_tool_invocations (tr ++ [e]) =
  (image_tool_invocations tr + (if is_subprocess e then 1 else 0))%nat.
Proof.
  unfold image_tool_invocations. rewrite List.filter_app, length_app. simpl.
  destruct (is_subprocess e); reflexivity.
Qed.

Lemma print_run self m force w :
  _print self m force w =
  (Ok tt, World (fs w) (trace w ++ (if verbose self || force then [EvPrint m] else []))).
Proof.
  unfold _print. destruct (verbose self || force); [reflexivity|].
  unfold ret. destruct w as [f tr]. simpl. now rewrite app_nil_r.
Qed.

Lemma print_invocations self m force w :
  image_tool_invocations (trace w ++ (if verbose self || force then [EvPrint m] else [])) =
  image_tool_invocations (trace w).
Proof.
  destruct (verbose self || force).
  - rewrite image_tool_invocations_app. simpl. lia.
  - now rewrite app_nil_r.
Qed.

Lemma sum_sizes_world l w : (sum_sizes l w).2 = w.
Proof.
  induction l as [|p l IH]; [reflexivity|].
  simpl. unfold bind, stat_size. destruct (fs w !! p); [|reflexivity].
  destruct (sum_sizes l w) as [[total|e] w'] eqn:E; simpl in *; now subst.
Qed.

Lemma sum_sizes_ok l w :
  (forall p, p ∈ l -> is_Some (fs w !! p)) ->
  sum_sizes l w = (Ok (total_size (fs w) l), w).
Proof.
  induction l as [|p l IH]; intros Hall; [reflexivity|].
  simpl. unfold bind, stat_size.
  destruct (Hall p) as [n Hn]; [by left|]. rewrite Hn.
  rewrite IH; [|intros q Hq; apply Hall; by right].
  reflexivity.
Qed.

Lemma total_size_perm f l1 l2 : l1 ≡ₚ l2 -> total_size f l1 = total_size f l2.
Proof.
  induction 1; simpl; try lia; congruence.
Qed.

Lemma listing_stat folder f p : p ∈ listing folder f -> is_Some (f !! p).
Proof.
  unfold listing. rewrite elem_of_filter, elem_of_dom. tauto.
Qed.

(** ** The adapters, case by case *)

Section Tools.

(** Any interpreter, any tools; [set_iter_perm] is used only where the
    result depends on every new file being enumerated. *)
Variable py_str : pyval -> string.
Variable set_iter : gset string -> list string.
Hypothesis set_iter_perm : forall X, set_iter X ≡ₚ elements X.
Variable extract_info :
  ydl_options -> string -> filesystem -> res (option dict) * filesystem.
Variable subprocess_run :
  list string -> Z -> filesystem -> res completed_process * filesystem.

Local Abbreviation video := (download_video_max_quality py_str extract_info).
Local Abbreviation images := (download_images_max_quality set_iter subprocess_run).
Local Abbreviation download' := (download py_str set_iter extract_info subprocess_run).

(** What the video adapter returns: the tool is run once on the incoming
    file system; the outcome is a failure built from an exception, or the
    success record of an info dictionary that has an id and an extension. *)
Lemma video_cases self url w :
  exists d w' r,
    video self url w = (Ok d, w')
    /\ extract_info (ydl_opts self) url (fs w) = (r, fs w')
    /\ image_tool_invocations (trace w') = image_tool_invocations (trace w)
    /\ ((exists e, d = failure e)
        \/ (exists info id ext,
              r = Ok (Some info)
              /\ info !! "id" = Some id /\ info !! "ext" = Some ext
              /\ d = list_to_map
                   [ ("success", VBool true);
                     ("type", VStr "video");
                     ("resolution",
                       VStr (py_str (dict_get info "width") ++ "x" ++
                             py_str (dict_get info "height")));
                     ("fps", dict_get info "fps");
                     ("size_mb",
                       py_round2
                         (match fs w' !! video_filename py_str self info id ext with
                          | Some n => bytes_to_mb n
                          | None => VInt 0
                          end));
                     ("filename", VStr (video_filename py_str self info id ext)) ])).
Proof.
  unfold download_video_max_quality, try_except, video_body, bind.
  rewrite print_run. unfold ydl_extract_info. cbn [fs trace].
  destruct (extract_info (ydl_opts self) url (fs w)) as [r fs'] eqn:Etool.
  set (w' := World fs' _).
  assert (Hinv : image_tool_invocations (trace w') = image_tool_invocations (trace w)).
  { unfold w'. cbn [trace]. rewrite image_tool_invocations_app, print_invocations.
    simpl. lia. }
  destruct r as [[info|]|e].
  - unfold lift_res, dict_getitem.
    destruct (info !! "id") as [id|] eqn:Eid.
    + destruct (info !! "ext") as [ext|] eqn:Eext.
      * unfold path_exists, stat_size, ret. cbn [fs].
        fold (video_filename py_str self info id ext).
        destruct (fs w' !! video_filename py_str self info id ext) as [n|] eqn:Efile.
        -- rewrite bool_decide_eq_true_2 by eauto. rewrite Efile.
           eexists _, w', _; split; [reflexivity|split; [reflexivity|split; [exact Hinv|]]].
           right. exists info, id, ext. rewrite Efile. by repeat split.
        -- rewrite bool_decide_eq_false_2 by (intros [? ?]; congruence).
           eexists _, w', _; split; [reflexivity|split; [reflexivity|split; [exact Hinv|]]].
           right. exists info, id, ext. rewrite Efile. by repeat split.
      * eexists _, w', _; split; [reflexivity|split; [reflexivity|split; [exact Hinv|]]].
        left. eauto.
    + eexists _, w', _; split; [reflexivity|split; [reflexivity|split; [exact Hinv|]]]. left. eauto.
  - eexists _, w', _; split; [reflexivity|split; [reflexivity|split; [exact Hinv|]]]. left. eauto.
  - eexists _, w', _; split; [reflexivity|split; [reflexivity|split; [exact Hinv|]]]. left. eauto.
Qed.

(** What the image adapter returns: the tool is started once; the outcome
    is the failure built from the exception it raised, or is decided by
    its exit code and by the entries the folder has gained. *)
Lemma images_cases self url w :
  exists d w' r,
    images self url w = (Ok d, w')
    /\ subprocess_run (gallery_dl_cmd self url) 120 (fs w) = (r, fs w')
    /\ image_tool_invocations (trace w') = S (image_tool_invocations (trace w))
    /\ match r with
       | Raise e => d = failure e
       | Ok cp =>
           let new_files :=
             listing (output_folder self) (fs w') ∖
             listing (output_folder self) (fs w) in
           if (returncode cp =? 0) && negb (bool_decide (new_files = ∅)) then
             match (sum_sizes (set_iter new_files) w').1 with
             | Ok total =>
                 d = list_to_map
                       [ ("success", VBool true);
                         ("type", VStr "images");
                         ("count", VInt (Z.of_nat (size new_files)));
                         ("size_mb", py_round2 (bytes_to_mb total));
                         ("files", VList (set_iter new_files)) ]
             | Raise e => d = failure e
             end
           else
             d = list_to_map
                   [ ("success", VBool false);
                     ("error", VStr (str_or (stderr cp) "No images found")) ]
       end.
Proof.
  unfold download_images_max_quality, try_except, images_body, bind.
  rewrite print_run. unfold glob_star, run_subprocess. cbn [fs trace].
  destruct (subprocess_run (gallery_dl_cmd self url) 120 (fs w)) as [r fs'] eqn:Etool.
  set (w' := World fs' _).
  assert (Hinv : image_tool_invocations (trace w') = S (image_tool_invocations (trace w))).
  { unfold w'. cbn [trace]. rewrite image_tool_invocations_app, print_invocations.
    simpl. lia. }
  destruct r as [cp|e].
  - cbn [fs]. fold w'.
    set (new_files := listing (output_folder self) (fs w') ∖
                      listing (output_folder self) (fs w)).
    destruct ((returncode cp =? 0) && negb (bool_decide (new_files = ∅))) eqn:Eok.
    + pose proof (sum_sizes_world (set_iter new_files) w') as Hw.
      destruct (sum_sizes (set_iter new_files) w') as [[total|e] w''] eqn:Esum;
        simpl in Hw; subst w''.
      * eexists _, w', _; split; [reflexivity|split; [reflexivity|split; [exact Hinv|]]].
        subst new_files. cbn zeta. rewrite Eok, Esum. reflexivity.
      * eexists _, w', _; split; [reflexivity|split; [reflexivity|split; [exact Hinv|]]].
        subst new_files. cbn zeta. rewrite Eok, Esum. reflexivity.
    + eexists _, w', _; split; [reflexivity|split; [reflexivity|split; [exact Hinv|]]].
      subst new_files. cbn zeta. rewrite Eok. reflexivity.
  - eexists _, w', _; split; [reflexivity|split; [reflexivity|split; [exact Hinv|]]].
    reflexivity.
Qed.

Lemma round_half_even_nonneg num den :
  0 <= num -> 0 < den -> 0 <= round_half_even num den.
Proof.
  intros Hn Hd. unfold round_half_even.
  assert (0 <= num / den) by (apply Z.div_pos; lia).
  repeat match goal with |- context [if ?b then _ else _] => destruct b end; lia.
Qed.

Lemma size_mb_nonneg n :
  exists q, num_of (py_round2 (bytes_to_mb n)) = Some q /\ (0 <= q)%Q.
Proof.
  eexists; split; [reflexivity|].
  unfold Qle. simpl. rewrite Z.mul_1_r.
  apply round_half_even_nonneg; [apply Z.mul_nonneg_nonneg; lia | reflexivity].
Qed.

Lemma insert_url_adds_url_only url (a : dict) :
  a !! "url" = None -> adds_url_only url a (<["url" := VStr url]> a).
Proof.
  intros Hnone. unfold adds_url_only. repeat split.
  - by apply not_elem_of_dom.
  - rewrite dom_insert_L. apply union_comm_L.
  - apply lookup_insert_eq.
  - intros k Hk. by apply lookup_insert_ne.
Qed.

(** ** The orchestrator *)

Lemma video_outcome self url w :
  exists d w',
    video self url w = (Ok d, w')
    /\ image_tool_invocations (trace w') = image_tool_invocations (trace w)
    /\ d !! "url" = None
    /\ ((is_failure d /\ exists msg, d !! "error" = Some (VStr msg))
        \/ (is_success d /\ d !! "type" = Some (VStr "video"))).
Proof.
  destruct (video_cases self url w)
    as (d & w' & r & Hrun & _ & Hinv & Hd).
  exists d, w'. split; [exact Hrun|]. split; [exact Hinv|].
  destruct Hd as [[e ->] | (info & id & ext & _ & _ & _ & ->)].
  - split; [reflexivity|]. left. split; [reflexivity|]. eexists. reflexivity.
  - split; [reflexivity|]. right. split; reflexivity.
Qed.

Lemma images_outcome self url w :
  exists d w',
    images self url w = (Ok d, w')
    /\ image_tool_invocations (trace w') = S (image_tool_invocations (trace w))
    /\ d !! "url" = None
    /\ ((is_failure d /\ exists msg, d !! "error" = Some (VStr msg))
        \/ (is_success d /\ d !! "type" = Some (VStr "images"))).
Proof.
  destruct (images_cases self url w)
    as (d & w' & r & Hrun & _ & Hinv & Hd).
  exists d, w'. split; [exact Hrun|]. split; [exact Hinv|].
  destruct r as [cp|e].
  - cbn zeta in Hd.
    destruct ((returncode cp =? 0) && _).
    + destruct (sum_sizes _ w').1 as [total|e]; subst d.
      * split; [reflexivity|]. right. split; reflexivity.
      * split; [reflexivity|]. left. split; [reflexivity|]. eexists. reflexivity.
    + subst d. split; [reflexivity|]. left. split; [reflexivity|].
      eexists. reflexivity.
  - subst d. split; [reflexivity|]. left. split; [reflexivity|]. eexists. reflexivity.
Qed.

Lemma download_unfold self url w :
  download' self url w =
  match video self url (announced url w) with
  | (Ok video_result, w2) =>
      match dict_getitem video_result "success" with
      | Ok video_ok =>
          if truthy video_ok then (Ok (<["url" := VStr url]> video_result), w2)
          else
            match images self url w2 with
            | (Ok image_result, w3) =>
                match dict_getitem image_result "success" with
                | Ok image_ok =>
                    if truthy image_ok
                    then (Ok (<["url" := VStr url]> image_result), w3)
                    else (Ok image_result, w3)
                | Raise e => (Raise e, w3)
                end
            | (Raise e, w3) => (Raise e, w3)
            end
      | Raise e => (Raise e, w2)
      end
  | (Raise e, w2) => (Raise e, w2)
  end.
Proof.
  unfold download, bind. rewrite print_run.
  replace (verbose self || negb (verbose self)) with true
    by (destruct (verbose self); reflexivity).
  fold (announced url w).
  destruct (video self url (announced url w)) as [[vr|e] w2]; [|reflexivity].
  unfold lift_res, ret.
  destruct (dict_getitem vr "success") as [ok|e]; [|reflexivity].
  destruct (truthy ok); [reflexivity|].
  destruct (images self url w2) as [[ir|e] w3]; [|reflexivity].
  destruct (dict_getitem ir "success") as [ok'|e]; [|reflexivity].
  destruct (truthy ok'); reflexivity.
Qed.

Lemma getitem_success (d : dict) :
  is_success d -> dict_getitem d "success" = Ok (VBool true).
Proof. unfold is_success, dict_getitem. now intros ->. Qed.

Lemma getitem_failure (d : dict) :
  is_failure d -> dict_getitem d "success" = Ok (VBool false).
Proof. unfold is_failure, dict_getitem. now intros ->. Qed.

Lemma download_run_video_success self url w vr w2 :
  video self url (announced url w) = (Ok vr, w2) ->
  is_success vr ->
  download' self url w = (Ok (<["url" := VStr url]> vr), w2).
Proof.
  intros Hrun Hok.
  by rewrite download_unfold, Hrun, (getitem_success _ Hok).
Qed.

Lemma download_run_images_failure self url w vr w2 ir w3 :
  video self url (announced url w) = (Ok vr, w2) ->
  is_failure vr ->
  images self url w2 = (Ok ir, w3) ->
  is_failure ir ->
  download' self url w = (Ok ir, w3).
Proof.
  intros Hrun Hfail Hirun Hf.
  rewrite download_unfold, Hrun, (getitem_failure _ Hfail). cbn [truthy].
  by rewrite Hirun, (getitem_failure _ Hf).
Qed.

Lemma download_run_images_success self url w vr w2 ir w3 :
  video self url (announced url w) = (Ok vr, w2) ->
  is_failure vr ->
  images self url w2 = (Ok ir, w3) ->
  is_success ir ->
  download' self url w = (Ok (<["url" := VStr url]> ir), w3).
Proof.
  intros Hrun Hfail Hirun Hs.
  rewrite download_unfold, Hrun, (getitem_failure _ Hfail). cbn [truthy].
  by rewrite Hirun, (getitem_success _ Hs).
Qed.

Lemma announced_invocations url w :
  image_tool_invocations (trace (announced url w)) =
  image_tool_invocations (trace w).
Proof.
  unfold announced. cbn [trace]. rewrite image_tool_invocations_app. simpl. lia.
Qed.

Lemma success_not_failure (d : dict) : is_success d -> is_failure d -> False.
Proof. unfold is_success, is_failure. congruence. Qed.

(** C1 (as amended): when the video adapter reports success, [download]
    returns the video adapter's record with the request URL stored under
    ["url"], every other entry as the adapter gave it; the outcome is
    tagged video; the image tool is not started. *)
Theorem download_video_success_adds_url :
  forall self url w vr w2,
    video self url (announced url w) = (Ok vr, w2) ->
    is_success vr ->
    download' self url w = (Ok (<["url" := VStr url]> vr), w2)
    /\ adds_url_only url vr (<["url" := VStr url]> vr)
    /\ (<["url" := VStr url]> vr) !! "type" = Some (VStr "video")
    /\ is_success (<["url" := VStr url]> vr)
    /\ image_tool_invocations (trace w2) = image_tool_invocations (trace w).
Proof.
  intros self url w vr w2 Hrun Hok.
  destruct (video_outcome self url (announced url w))
    as (d & w' & Hrun' & Hinv & Hurl & Hshape).
  rewrite Hrun in Hrun'. injection Hrun' as <- <-.
  destruct Hshape as [[Hfail _] | [_ Htype]];
    [destruct (success_not_failure _ Hok Hfail)|].
  split; [by apply download_run_video_success|].
  split; [by apply insert_url_adds_url_only|].
  split; [by rewrite lookup_insert_ne|].
  split; [unfold is_success; by rewrite lookup_insert_ne|].
  by rewrite Hinv, announced_invocations.
Qed.



(** ** The image adapter's outcome *)

Lemma elem_of_set_iter X p : p ∈ set_iter X <-> p ∈ X.
Proof. by rewrite set_iter_perm, elem_of_elements. Qed.

Lemma NoDup_set_iter X : NoDup (set_iter X).
Proof. rewrite set_iter_perm. apply NoDup_elements. Qed.

Lemma length_set_iter X : length (set_iter X) = size X.
Proof. by rewrite set_iter_perm. Qed.

(** Every new file can be sized: the sum never raises. *)
Lemma sum_sizes_new_files folder f w :
  sum_sizes (set_iter (listing folder (fs w) ∖ listing folder f)) w =
  (Ok (total_size (fs w) (elements (listing folder (fs w) ∖ listing folder f))), w).
Proof.
  rewrite sum_sizes_ok.
  - by rewrite (total_size_perm _ _ _ (set_iter_perm _)).
  - intros p Hp. apply elem_of_set_iter, elem_of_difference in Hp as [Hp _].
    by eapply listing_stat.
Qed.

(** The adapter's outcome as a function of what the tool did. *)
Lemma images_outcome_by_tool self url w :
  exists d w' r,
    images self url w = (Ok d, w')
    /\ subprocess_run (gallery_dl_cmd self url) 120 (fs w) = (r, fs w')
    /\ match r with
       | Raise e => d = failure e
       | Ok cp =>
           let new_files :=
             listing (output_folder self) (fs w') ∖
             listing (output_folder self) (fs w) in
           if (returncode cp =? 0) && negb (bool_decide (new_files = ∅)) then
             d = list_to_map
                   [ ("success", VBool true);
                     ("type", VStr "images");
                     ("count", VInt (Z.of_nat (size new_files)));
                     ("size_mb",
                       py_round2 (bytes_to_mb (total_size (fs w') (elements new_files))));
                     ("files", VList (set_iter new_files)) ]
           else
             d = list_to_map
                   [ ("success", VBool false);
                     ("error", VStr (str_or (stderr cp) "No images found")) ]
       end.
Proof.
  destruct (images_cases self url w)
    as (d & w' & r & Hrun & Htool & _ & Hd).
  exists d, w', r. split; [exact Hrun|]. split; [exact Htool|].
  destruct r as [cp|e]; [|exact Hd].
  cbn zeta in *. destruct ((returncode cp =? 0) && _); [|exact Hd].
  by rewrite sum_sizes_new_files in Hd.
Qed.

Lemma str_or_nonempty s d : s ≠ "" -> str_or s d = s.
Proof.
  intros Hs. unfold str_or, truthy.
  destruct (String.eqb s "") eqn:E; [|reflexivity].
  apply String.eqb_eq in E. contradiction.
Qed.

(** The adapter's outcome when its result and final world are known. *)
Lemma images_outcome_inv self url w d w' :
  images self url w = (Ok d, w') ->
  exists r,
    subprocess_run (gallery_dl_cmd self url) 120 (fs w) = (r, fs w')
    /\ match r with
       | Raise e => d = failure e
       | Ok cp =>
           let new_files :=
             listing (output_folder self) (fs w') ∖
             listing (output_folder self) (fs w) in
           if (returncode cp =? 0) && negb (bool_decide (new_files = ∅)) then
             d = list_to_map
                   [ ("success", VBool true);
                     ("type", VStr "images");
                     ("count", VInt (Z.of_nat (size new_files)));
                     ("size_mb",
                       py_round2 (bytes_to_mb (total_size (fs w') (elements new_files))));
                     ("files", VList (set_iter new_files)) ]
           else
             d = list_to_map
                   [ ("success", VBool false);
                     ("error", VStr (str_or (stderr cp) "No images found")) ]
       end.
Proof.
  intros Hrun.
  destruct (images_outcome_by_tool self url w) as (d0 & w0 & r & Hrun0 & Htool & Hd).
  rewrite Hrun in Hrun0. injection Hrun0 as <- <-.
  exists r. by split.
Qed.

(** C3: on a success of the image adapter, with [B] the entries of the
    destination folder before the tool runs and [A] its entries after, the
    reported files are the elements of [A ∖ B], each once; no path that
    existed before the run is reported, whatever the tool did to it. *)
Theorem images_new_files_are_after_minus_before :
  forall self url w d w',
    images self url w = (Ok d, w') ->
    is_success d ->
    let B := listing (output_folder self) (fs w) in
    let A := listing (output_folder self) (fs w') in
    (subprocess_run (gallery_dl_cmd self url) 120 (fs w)).2 = fs w'
    /\ exists l,
         d !! "files" = Some (VList l)
         /\ NoDup l
         /\ list_to_set l = A ∖ B
         /\ (forall p, p ∈ l <-> p ∈ A /\ p ∉ B)
         /\ (forall p, is_Some (fs w !! p) -> p ∉ l).
Proof.
  intros self url w d w' Hrun Hok B A.
  destruct (images_outcome_inv self url w d w' Hrun) as (r & Htool & Hd).
  split; [by rewrite Htool|].
  destruct r as [cp|e]; [|subst d; discriminate Hok].
  cbn zeta in Hd. fold B A in Hd.
  destruct ((returncode cp =? 0) && _); [|subst d; discriminate Hok].
  exists (set_iter (A ∖ B)). subst d.
  assert (Hmem : forall p, p ∈ set_iter (A ∖ B) <-> p ∈ A /\ p ∉ B).
  { intros p. by rewrite elem_of_set_iter, elem_of_difference. }
  split; [reflexivity|]. split; [apply NoDup_set_iter|].
  split; [|split; [exact Hmem|]].
  - apply set_eq. intros p. by rewrite elem_of_list_to_set, elem_of_set_iter.
  - intros p Hbefore Hp. apply Hmem in Hp as [HA HB]. apply HB.
    unfold A, B, listing in *. apply elem_of_filter in HA as [Hentry _].
    apply elem_of_filter. split; [exact Hentry|]. by apply elem_of_dom.
Qed.

(** C8: a success of the image adapter carries the number of new files,
    their combined size in megabytes (rounded to two decimals) and a list
    holding the path of each new file once. *)
Theorem images_success_payload :
  forall self url w d w',
    images self url w = (Ok d, w') ->
    is_success d ->
    let new_files :=
      listing (output_folder self) (fs w') ∖ listing (output_folder self) (fs w) in
    d !! "type" = Some (VStr "images")
    /\ d !! "count" = Some (VInt (Z.of_nat (size new_files)))
    /\ d !! "size_mb" =
       Some (py_round2 (bytes_to_mb (total_size (fs w') (elements new_files))))
    /\ exists l,
         d !! "files" = Some (VList l)
         /\ l ≡ₚ elements new_files
         /\ Z.of_nat (length l) = Z.of_nat (size new_files)
         /\ (0 < length l)%nat.
Proof.
  intros self url w d w' Hrun Hok new_files.
  destruct (images_outcome_inv self url w d w' Hrun) as (r & Htool & Hd).
  destruct r as [cp|e]; [|subst d; discriminate Hok].
  cbn zeta in Hd. fold new_files in Hd.
  destruct (returncode cp =? 0);
    [|cbn [andb] in Hd; subst d; discriminate Hok].
  destruct (decide (new_files = ∅)) as [Hempty|Hnew].
  { rewrite bool_decide_eq_true_2 in Hd by exact Hempty.
    cbn [andb negb] in Hd. subst d. discriminate Hok. }
  rewrite bool_decide_eq_false_2 in Hd by exact Hnew.
  cbn [andb negb] in Hd. subst d.
  split; [reflexivity|]. split; [reflexivity|]. split; [reflexivity|].
  exists (set_iter new_files). split; [reflexivity|].
  split; [apply set_iter_perm|]. rewrite length_set_iter. split; [reflexivity|].
  assert (Hsize : size new_files ≠ 0%nat).
  { apply size_non_empty_iff. intros Heq. apply Hnew. by apply leibniz_equiv. }
  lia.
Qed.

(** ** Sizes and shapes of the success records *)

Lemma video_size_nonneg f filename :
  exists q, num_of (video_size_on_disk f filename) = Some q /\ (0 <= q)%Q.
Proof.
  unfold video_size_on_disk. destruct (f !! filename) as [n|].
  - apply size_mb_nonneg.
  - exists (inject_Z 0). split; [reflexivity | apply Qle_refl].
Qed.

(** C9: the size figure of a success record is read from the file system
    the tool has left (the file named by the record for a video, the new
    entries of the folder for images) and is not negative; a video record
    has no list of files, an image record has no resolution, frame rate
    or file name. *)
Theorem success_size_is_from_disk_and_nonneg :
  (forall self url w d w',
      video self url w = (Ok d, w') ->
      is_success d ->
      exists filename size_mb,
        d !! "type" = Some (VStr "video")
        /\ d !! "filename" = Some (VStr filename)
        /\ d !! "size_mb" = Some size_mb
        /\ size_mb = video_size_on_disk (fs w') filename
        /\ (exists q, num_of size_mb = Some q /\ (0 <= q)%Q)
        /\ d !! "files" = None /\ d !! "count" = None)
  /\ (forall self url w d w',
        images self url w = (Ok d, w') ->
        is_success d ->
        exists size_mb,
          d !! "type" = Some (VStr "images")
          /\ d !! "size_mb" = Some size_mb
          /\ size_mb =
             py_round2
               (bytes_to_mb
                  (total_size (fs w')
                     (elements (listing (output_folder self) (fs w') ∖
                                listing (output_folder self) (fs w)))))
          /\ (exists q, num_of size_mb = Some q /\ (0 <= q)%Q)
          /\ d !! "resolution" = None /\ d !! "fps" = None
          /\ d !! "filename" = None).
Proof.
  split.
  - intros self url w d w' Hrun Hok.
    destruct (video_cases self url w)
      as (d0 & w0 & r & Hrun0 & _ & _ & Hd).
    rewrite Hrun in Hrun0. injection Hrun0 as <- <-.
    destruct Hd as [[e ->] | (info & id & ext & _ & _ & _ & ->)];
      [discriminate Hok|].
    exists (video_filename py_str self info id ext),
      (video_size_on_disk (fs w') (video_filename py_str self info id ext)).
    split; [reflexivity|]. split; [reflexivity|]. split; [reflexivity|].
    split; [reflexivity|]. split; [apply video_size_nonneg|].
    split; reflexivity.
  - intros self url w d w' Hrun Hok.
    destruct (images_outcome_inv self url w d w' Hrun) as (r & _ & Hd).
    destruct r as [cp|e]; [|subst d; discriminate Hok].
    cbn zeta in Hd.
    destruct ((returncode cp =? 0) && _); [|subst d; discriminate Hok].
    subst d. eexists. split; [reflexivity|]. split; [reflexivity|].
    split; [reflexivity|]. split; [apply size_mb_nonneg|].
    repeat split; reflexivity.
Qed.

End Tools.

(** ** The three posts, run *)

Lemma demo_video_run :
  download_video_max_quality str_scalar video_post_tool demo_self demo_url
    (announced demo_url demo_world)
  = (Ok demo_video_record, demo_world_after_video).
Proof. vm_compute. reflexivity. Qed.


Lemma demo_images_run w :
  fs w = fs demo_world ->
  download_images_max_quality elements image_post_tool demo_self demo_url w
  = (Ok demo_image_record,
     World demo_fs_after_images
           (trace w ++ [EvSubprocess (gallery_dl_cmd demo_self demo_url)])).
Proof.
  destruct w as [f tr]. simpl. intros ->.
  unfold download_images_max_quality, try_except, images_body, bind.
  rewrite print_run. cbn [fs trace verbose demo_self orb app].
  rewrite app_nil_r. vm_compute. reflexivity.
Qed.

Lemma demo_warning_run :
  download_images_max_quality elements warning_only_tool demo_self demo_url demo_world
  = (Ok demo_warning_failure,
     World (fs demo_world) [EvSubprocess (gallery_dl_cmd demo_self demo_url)]).
Proof. vm_compute. reflexivity. Qed.

(** C1, as stated, fails on the video post: the video adapter succeeds and
    the outcome of [download] is not the record the adapter returned. *)
Lemma download_video_outcome_is_not_the_adapter_record :
  download_video_max_quality str_scalar video_post_tool demo_self demo_url
    (announced demo_url demo_world)
  = (Ok demo_video_record, demo_world_after_video)
  /\ is_success demo_video_record
  /\ (download str_scalar elements video_post_tool image_post_tool
        demo_self demo_url demo_world).1
     = Ok (<["url" := VStr demo_url]> demo_video_record)
  /\ (download str_scalar elements video_post_tool image_post_tool
        demo_self demo_url demo_world).1
     ≠ Ok demo_video_record.
Proof.
  split; [exact demo_video_run|]. split; [reflexivity|].
  split; [vm_compute; reflexivity|].
  intros Heq.
  apply (f_equal (fun r => match r with Ok d => d !! "url" | Raise _ => None end)) in Heq.
  vm_compute in Heq. discriminate Heq.
Qed.


(** ** The theorems at the three posts *)

(** The video post, through the theorem of C1. *)
Lemma download_video_success_adds_url_witness :
  download_video_max_quality str_scalar video_post_tool demo_self demo_url
    (announced demo_url demo_world)
  = (Ok demo_video_record, demo_world_after_video)
  /\ is_success demo_video_record
  /\ download str_scalar elements video_post_tool image_post_tool
       demo_self demo_url demo_world
     = (Ok (<["url" := VStr demo_url]> demo_video_record), demo_world_after_video)
  /\ adds_url_only demo_url demo_video_record
       (<["url" := VStr demo_url]> demo_video_record)
  /\ (<["url" := VStr demo_url]> demo_video_record) !! "type" = Some (VStr "video")
  /\ is_success (<["url" := VStr demo_url]> demo_video_record)
  /\ image_tool_invocations (trace demo_world_after_video)
     = image_tool_invocations (trace demo_world).
Proof.
  split; [exact demo_video_run|]. split; [reflexivity|].
  apply (download_video_success_adds_url str_scalar elements
           video_post_tool image_post_tool demo_self demo_url demo_world
           demo_video_record demo_world_after_video);
    [exact demo_video_run | reflexivity].
Defined.


(** The image post, through the theorem of C3: the old file is rewritten by
    the tool and is not reported. *)
Lemma images_new_files_are_after_minus_before_witness :
  download_images_max_quality elements image_post_tool demo_self demo_url demo_world
  = (Ok demo_image_record,
     World demo_fs_after_images [EvSubprocess (gallery_dl_cmd demo_self demo_url)])
  /\ is_success demo_image_record
  /\ is_Some (fs demo_world !! "twitter_downloads/old.jpg")
  /\ fs demo_world !! "twitter_downloads/old.jpg"
     ≠ demo_fs_after_images !! "twitter_downloads/old.jpg"
  /\ (image_post_tool (gallery_dl_cmd demo_self demo_url) 120 (fs demo_world)).2
     = demo_fs_after_images
  /\ exists l,
       demo_image_record !! "files" = Some (VList l)
       /\ NoDup l
       /\ list_to_set l
          = listing (output_folder demo_self) demo_fs_after_images ∖
            listing (output_folder demo_self) (fs demo_world)
       /\ (forall p, p ∈ l <->
                     p ∈ listing (output_folder demo_self) demo_fs_after_images
                     /\ p ∉ listing (output_folder demo_self) (fs demo_world))
       /\ (forall p, is_Some (fs demo_world !! p) -> p ∉ l).
Proof.
  assert (Hrun := demo_images_run demo_world eq_refl).
  split; [exact Hrun|]. split; [reflexivity|].
  split; [by eexists|]. split; [vm_compute; discriminate|].
  apply (images_new_files_are_after_minus_before elements elements_perm
           image_post_tool demo_self demo_url demo_world demo_image_record
           (World demo_fs_after_images
                  [EvSubprocess (gallery_dl_cmd demo_self demo_url)]));
    [exact Hrun | reflexivity].
Defined.

(** The image post, through the theorem of C8. *)
Lemma images_success_payload_witness :
  download_images_max_quality elements image_post_tool demo_self demo_url demo_world
  = (Ok demo_image_record,
     World demo_fs_after_images [EvSubprocess (gallery_dl_cmd demo_self demo_url)])
  /\ is_success demo_image_record
  /\ demo_image_record !! "type" = Some (VStr "images")
  /\ demo_image_record !! "count"
     = Some (VInt (Z.of_nat (size
         (listing (output_folder demo_self) demo_fs_after_images ∖
          listing (output_folder demo_self) (fs demo_world)))))
  /\ demo_image_record !! "size_mb"
     = Some (py_round2 (bytes_to_mb (total_size demo_fs_after_images
         (elements (listing (output_folder demo_self) demo_fs_after_images ∖
                    listing (output_folder demo_self) (fs demo_world))))))
  /\ exists l,
       demo_image_record !! "files" = Some (VList l)
       /\ l ≡ₚ elements (listing (output_folder demo_self) demo_fs_after_images ∖
                          listing (output_folder demo_self) (fs demo_world))
       /\ Z.of_nat (length l)
          = Z.of_nat (size (listing (output_folder demo_self) demo_fs_after_images ∖
                            listing (output_folder demo_self) (fs demo_world)))
       /\ (0 < length l)%nat.
Proof.
  assert (Hrun := demo_images_run demo_world eq_refl).
  split; [exact Hrun|]. split; [reflexivity|].
  apply (images_success_payload elements elements_perm image_post_tool
           demo_self demo_url demo_world demo_image_record
           (World demo_fs_after_images
                  [EvSubprocess (gallery_dl_cmd demo_self demo_url)]));
    [exact Hrun | reflexivity].
Defined.

(** The video post and the image post, through the theorem of C9. *)
Lemma success_size_is_from_disk_and_nonneg_witness :
  (exists filename size_mb,
      demo_video_record !! "type" = Some (VStr "video")
      /\ demo_video_record !! "filename" = Some (VStr filename)
      /\ demo_video_record !! "size_mb" = Some size_mb
      /\ size_mb = video_size_on_disk (fs demo_world_after_video) filename
      /\ (exists q, num_of size_mb = Some q /\ (0 <= q)%Q)
      /\ demo_video_record !! "files" = None
      /\ demo_video_record !! "count" = None)
  /\ (exists size_mb,
        demo_image_record !! "type" = Some (VStr "images")
        /\ demo_image_record !! "size_mb" = Some size_mb
        /\ size_mb
           = py_round2 (bytes_to_mb (total_size demo_fs_after_images
               (elements (listing (output_folder demo_self) demo_fs_after_images ∖
                          listing (output_folder demo_self) (fs demo_world)))))
        /\ (exists q, num_of size_mb = Some q /\ (0 <= q)%Q)
        /\ demo_image_record !! "resolution" = None
        /\ demo_image_record !! "fps" = None
        /\ demo_image_record !! "filename" = None).
Proof.
  destruct (success_size_is_from_disk_and_nonneg str_scalar elements elements_perm
              video_post_tool image_post_tool) as [Hvideo Himages].
  split.
  - exact (Hvideo demo_self demo_url (announced demo_url demo_world)
             demo_video_record demo_world_after_video demo_video_run eq_refl).
  - exact (Himages demo_self demo_url demo_world demo_image_record
             (World demo_fs_after_images
                    [EvSubprocess (gallery_dl_cmd demo_self demo_url)])
             (demo_images_run demo_world eq_refl) eq_refl).
Defined.

(** * More of the program *)

(** ** The video adapter, from what the tool returns *)

Section MoreTools.

Variable py_str : pyval -> string.
Variable set_iter : gset string -> list string.
Hypothesis set_iter_perm : forall X, set_iter X ≡ₚ elements X.
Variable extract_info :
  ydl_options -> string -> filesystem -> res (option dict) * filesystem.
Variable subprocess_run :
  list string -> Z -> filesystem -> res completed_process * filesystem.
Variable os_makedirs : string -> filesystem -> res unit * filesystem.

Local Abbreviation video := (download_video_max_quality py_str extract_info).
Local Abbreviation images := (download_images_max_quality set_iter subprocess_run).
Local Abbreviation download' := (download py_str set_iter extract_info subprocess_run).
Local Abbreviation entry :=
  (download_twitter_media py_str set_iter extract_info subprocess_run os_makedirs).

(** The video adapter, computed from the answer of the tool. *)
Lemma video_run self url w :
  video self url w =
  (Ok match (extract_info (ydl_opts self) url (fs w)).1 with
      | Raise e => failure e
      | Ok None => failure TypeError_not_subscriptable
      | Ok (Some info) =>
          match info !! "id", info !! "ext" with
          | None, _ => failure (KeyError "id")
          | Some _, None => failure (KeyError "ext")
          | Some id, Some ext =>
              list_to_map
                [ ("success", VBool true);
                  ("type", VStr "video");
                  ("resolution",
                    VStr (py_str (dict_get info "width") ++ "x" ++
                          py_str (dict_get info "height")));
                  ("fps", dict_get info "fps");
                  ("size_mb",
                    video_size_on_disk
                      (extract_info (ydl_opts self) url (fs w)).2
                      (video_filename py_str self info id ext));
                  ("filename", VStr (video_filename py_str self info id ext)) ]
          end
      end,
   World (extract_info (ydl_opts self) url (fs w)).2 (video_trace self url (trace w))).
Proof.
  unfold download_video_max_quality, try_except, video_body, bind, video_trace.
  rewrite print_run. unfold ydl_extract_info. cbn [fs trace].
  rewrite orb_false_r.
  destruct (extract_info (ydl_opts self) url (fs w)) as [r fs'].
  cbn [fst snd].
  destruct r as [[info|]|e]; [|reflexivity|reflexivity].
  unfold lift_res, dict_getitem.
  destruct (info !! "id") as [id|]; [|reflexivity].
  destruct (info !! "ext") as [ext|]; [|reflexivity].
  unfold path_exists, stat_size, ret, video_size_on_disk. cbn [fs].
  fold (video_filename py_str self info id ext).
  destruct (fs' !! video_filename py_str self info id ext) as [n|] eqn:Efile.
  - rewrite bool_decide_eq_true_2 by eauto. cbn [fs]. by rewrite Efile.
  - by rewrite bool_decide_eq_false_2 by (intros [? ?]; congruence).
Qed.

(** The world the image adapter leaves. *)
Lemma images_world self url w :
  (images self url w).2 =
  World (subprocess_run (gallery_dl_cmd self url) 120 (fs w)).2
        (images_trace self url (trace w)).
Proof.
  unfold download_images_max_quality, try_except, images_body, bind, images_trace.
  rewrite print_run. unfold glob_star, run_subprocess. cbn [fs trace].
  rewrite orb_false_r.
  destruct (subprocess_run (gallery_dl_cmd self url) 120 (fs w)) as [r fs'].
  cbn [fst snd]. set (w' := World fs' _).
  destruct r as [cp|e]; [|reflexivity].
  cbn [fs]. destruct ((returncode cp =? 0) && _); [|reflexivity].
  pose proof (sum_sizes_world
                (set_iter (listing (output_folder self) fs' ∖
                           listing (output_folder self) (fs w))) w') as Hw.
  destruct (sum_sizes _ w') as [[total|e] w'']; simpl in Hw; by subst w''.
Qed.

(** The world [download] leaves: the video adapter's when it succeeds, the
    image adapter's, run after it, otherwise. *)
Lemma download_world self url w :
  exists d,
    let fs1 := (extract_info (ydl_opts self) url (fs w)).2 in
    let tr1 := video_trace self url (trace (announced url w)) in
    (is_success d \/ is_failure d)
    /\ ((d !! "type" = Some (VStr "video")
         /\ download' self url w = (Ok d, World fs1 tr1))
        \/ (d !! "type" ≠ Some (VStr "video")
            /\ download' self url w =
               (Ok d, World (subprocess_run (gallery_dl_cmd self url) 120 fs1).2
                            (images_trace self url tr1)))).
Proof.
  destruct (video_outcome py_str extract_info self url (announced url w))
    as (vr & w2 & Hrun & _ & _ & Hshape).
  assert (Hw2 : w2 = World (extract_info (ydl_opts self) url (fs w)).2
                           (video_trace self url (trace (announced url w)))).
  { change w2 with (Ok vr, w2).2. rewrite <- Hrun, video_run. reflexivity. }
  destruct Hshape as [[Hf _] | [Hs Htype]].
  - destruct (images_outcome set_iter subprocess_run self url w2)
      as (ir & w3 & Hirun & _ & _ & Hishape).
    assert (Hw3 : w3 = World (subprocess_run (gallery_dl_cmd self url) 120 (fs w2)).2
                             (images_trace self url (trace w2))).
    { change w3 with (Ok ir, w3).2. rewrite <- Hirun. apply images_world. }
    rewrite Hw2 in Hw3. cbn [fs trace] in Hw3.
    destruct Hishape as [[Hf' [msg Hmsg]] | [Hs' Htype']].
    + exists ir. cbn zeta. split; [by right|]. right. split.
      * destruct (images_cases set_iter subprocess_run self url w2)
          as (d0 & w0 & r & Hrun0 & _ & _ & Hd).
        rewrite Hirun in Hrun0. injection Hrun0 as <- <-.
        destruct r as [cp|e].
        -- cbn zeta in Hd. destruct ((returncode cp =? 0) && _).
           ++ destruct (sum_sizes _ w3).1; subst ir; discriminate.
           ++ subst ir. discriminate.
        -- subst ir. discriminate.
      * rewrite <- Hw3.
        by eapply download_run_images_failure.
    + exists (<["url" := VStr url]> ir). cbn zeta.
      split; [left; unfold is_success; by rewrite lookup_insert_ne|].
      right. split.
      * rewrite lookup_insert_ne by done. rewrite Htype'. discriminate.
      * rewrite <- Hw3. by eapply download_run_images_success.
  - exists (<["url" := VStr url]> vr). cbn zeta.
    split; [left; unfold is_success; by rewrite lookup_insert_ne|].
    left. split; [by rewrite lookup_insert_ne|].
    rewrite <- Hw2. by apply download_run_video_success.
Qed.


(** X2: the message of a failure of the video adapter is the text of the
    exception the tool raised; when the tool returned [None] it is the text
    of the [TypeError] of subscripting [None]; when the info dictionary has
    no ["id"] it is ['id'], and when it has an id but no ["ext"], ['ext']
    (the text of the [KeyError]). *)
Theorem video_failure_message :
  forall self url w d w',
    video self url w = (Ok d, w') ->
    is_failure d ->
    match (extract_info (ydl_opts self) url (fs w)).1 with
    | Raise e => d !! "error" = Some (VStr (exn_str e))
    | Ok None =>
        d !! "error" = Some (VStr "'NoneType' object is not subscriptable")
    | Ok (Some info) =>
        (info !! "id" = None /\ d !! "error" = Some (VStr "'id'"))
        \/ (is_Some (info !! "id") /\ info !! "ext" = None
            /\ d !! "error" = Some (VStr "'ext'"))
    end.
Proof.
  intros self url w d w' Hrun Hfail. rewrite video_run in Hrun.
  injection Hrun as <- _.
  destruct (extract_info (ydl_opts self) url (fs w)).1 as [[info|]|e];
    [|reflexivity|reflexivity].
  destruct (info !! "id") as [id|] eqn:Eid; [|by left].
  destruct (info !! "ext") as [ext|] eqn:Eext; [discriminate Hfail|].
  right. split; [eauto|]. by split.
Qed.

(** X3: when the tool returns an info dictionary with an id and an extension
    and no file exists under the name the adapter builds from them, the
    adapter still reports success, with that name and the size [0]. *)
Theorem video_success_without_file_reports_zero :
  forall self url w info id ext,
    (extract_info (ydl_opts self) url (fs w)).1 = Ok (Some info) ->
    info !! "id" = Some id ->
    info !! "ext" = Some ext ->
    (extract_info (ydl_opts self) url (fs w)).2
      !! video_filename py_str self info id ext = None ->
    exists d w',
      video self url w = (Ok d, w')
      /\ is_success d
      /\ d !! "filename" = Some (VStr (video_filename py_str self info id ext))
      /\ d !! "size_mb" = Some (VInt 0)
      /\ fs w' !! video_filename py_str self info id ext = None.
Proof.
  intros self url w info id ext Htool Hid Hext Hfile.
  eexists _, _. split; [apply video_run|].
  rewrite Htool, Hid, Hext. unfold video_size_on_disk. rewrite Hfile.
  cbn [fs]. by repeat split.
Qed.






(** ** The entry point *)

(** [download_twitter_media] when the folder cannot be made. *)
Lemma entry_run_no_folder url w e fs0 :
  os_makedirs "twitter_downloads" (fs w) = (Raise e, fs0) ->
  entry url w =
  (Ok (None,
       Some (error_mark ++ "An unexpected error occurred. Please try again later.")),
   World fs0 (trace w ++ [EvPrint ("An unexpected error occurred: " ++ exn_str e)])).
Proof.
  intros Hmk.
  unfold download_twitter_media, try_except, __init__, makedirs, bind.
  by rewrite Hmk.
Qed.

(** [download_twitter_media] when the folder is there: [download] decides. *)
Lemma entry_run_folder url w u fs0 d w' :
  os_makedirs "twitter_downloads" (fs w) = (Ok u, fs0) ->
  download' (Downloader "twitter_downloads" false) url (World fs0 (trace w))
  = (Ok d, w') ->
  (is_success d -> entry url w = (Ok (Some d, None), w'))
  /\ (is_failure d ->
      entry url w =
      (Ok (None,
           Some (error_mark ++
                 py_str (dict_get_default d "error" (VStr "Unknown error")))),
       w')).
Proof.
  intros Hmk Hrun.
  split; intros Hd;
    unfold download_twitter_media, try_except, __init__, makedirs, bind;
    rewrite Hmk; unfold ret at 1; cbv beta iota; rewrite Hrun; unfold lift_res.
  - by rewrite (getitem_success _ Hd).
  - by rewrite (getitem_failure _ Hd).
Qed.


Lemma round_half_even_error num den :
  0 < den -> 2 * Z.abs (num - den * round_half_even num den) <= den.
Proof.
  intros Hden. unfold round_half_even.
  pose proof (Z.div_mod num den ltac:(lia)) as Hdm.
  pose proof (Z.mod_pos_bound num den Hden) as Hmod.
  destruct (2 * (num mod den) <? den) eqn:E1; [apply Z.ltb_lt in E1; nia|].
  apply Z.ltb_ge in E1.
  destruct (den <? 2 * (num mod den)) eqn:E2; [apply Z.ltb_lt in E2; nia|].
  apply Z.ltb_ge in E2.
  destruct (Z.even (num / den)); nia.
Qed.

Lemma size_mb_error n :
  exists k,
    py_round2 (bytes_to_mb n) = VFloat (k # 100)
    /\ 2 * Z.abs (100 * Z.of_N n - 1048576 * k) <= 1048576.
Proof.
  eexists. split; [reflexivity|]. cbn [Qnum Qden].
  by apply round_half_even_error.
Qed.

(** X10: the size a success record reports is a whole number [k] of
    hundredths of a megabyte, at most half a hundredth away from the bytes on
    disk: [2 * |100 * bytes - 2^20 * k| <= 2^20], for the video file when it
    exists and for the sum over the new image files. *)
Theorem success_size_within_half_a_hundredth :
  (forall self url w d w' filename n,
      video self url w = (Ok d, w') ->
      is_success d ->
      d !! "filename" = Some (VStr filename) ->
      fs w' !! filename = Some n ->
      exists k,
        d !! "size_mb" = Some (VFloat (k # 100))
        /\ 2 * Z.abs (100 * Z.of_N n - 1048576 * k) <= 1048576)
  /\ (forall self url w d w',
        images self url w = (Ok d, w') ->
        is_success d ->
        exists k,
          d !! "size_mb" = Some (VFloat (k # 100))
          /\ 2 * Z.abs
                 (100 * Z.of_N
                          (total_size (fs w')
                             (elements (listing (output_folder self) (fs w') ∖
                                        listing (output_folder self) (fs w))))
                  - 1048576 * k) <= 1048576).
Proof.
  split.
  - intros self url w d w' filename n Hrun Hok Hname Hfile.
    rewrite video_run in Hrun. injection Hrun as <- <-.
    destruct (extract_info (ydl_opts self) url (fs w)).1 as [[info|]|e];
      [|discriminate Hok|discriminate Hok].
    destruct (info !! "id") as [id|]; [|discriminate Hok].
    destruct (info !! "ext") as [ext|]; [|discriminate Hok].
    assert (Heq : filename = video_filename py_str self info id ext).
    { assert (Hsame : Some (VStr filename)
                      = Some (VStr (video_filename py_str self info id ext)))
        by (rewrite <- Hname; reflexivity).
      by injection Hsame. }
    subst filename. cbn [fs] in Hfile.
    destruct (size_mb_error n) as (k & Hk & Hbound).
    exists k. split; [|exact Hbound].
    unfold video_size_on_disk. rewrite Hfile, Hk. reflexivity.
  - intros self url w d w' Hrun Hok.
    destruct (images_outcome_inv set_iter set_iter_perm subprocess_run
                self url w d w' Hrun) as (r & _ & Hd).
    destruct r as [cp|e]; [|subst d; discriminate Hok].
    cbn zeta in Hd.
    destruct ((returncode cp =? 0) && _); [|subst d; discriminate Hok].
    destruct (size_mb_error
                (total_size (fs w')
                   (elements (listing (output_folder self) (fs w') ∖
                              listing (output_folder self) (fs w)))))
      as (k & Hk & Hbound).
    exists k. split; [|exact Hbound]. subst d. rewrite <- Hk. reflexivity.
Qed.

End MoreTools.

(** ** More on the sanitizer *)

Lemma sanitize_filename_cons c text :
  sanitize_filename (String c text) =
  if in_class illegal_chars c then sanitize_filename text
  else String c (sanitize_filename text).
Proof. unfold sanitize_filename. cbn [re_sub_class]. by destruct (in_class _ c). Qed.

(** X11: sanitizing twice is sanitizing once. *)
Theorem sanitize_filename_idempotent :
  forall text, sanitize_filename (sanitize_filename text) = sanitize_filename text.
Proof.
  induction text as [|c text IH]; [reflexivity|].
  rewrite sanitize_filename_cons.
  destruct (in_class illegal_chars c) eqn:E; [exact IH|].
  by rewrite sanitize_filename_cons, E, IH.
Qed.

(** X12: the sanitizer goes through concatenation: a name put together from
    sanitized parts is the sanitized whole. *)
Theorem sanitize_filename_app :
  forall a b,
    sanitize_filename (a ++ b) = sanitize_filename a ++ sanitize_filename b.
Proof.
  induction a as [|c a IH]; intros b; [reflexivity|].
  change (String c a ++ b) with (String c (a ++ b)).
  rewrite !sanitize_filename_cons, IH.
  by destruct (in_class illegal_chars c).
Qed.

(** X13: the sanitizer returns the empty text exactly on the texts made of
    illegal characters only (the empty text among them): it does not
    guarantee a usable file name. *)
Theorem sanitize_filename_empty_iff :
  forall text,
    sanitize_filename text = "" <->
    forall c, In c (list_ascii_of_string text) -> In c illegal_chars.
Proof.
  induction text as [|c text IH]; [by split|].
  rewrite sanitize_filename_cons. cbn [list_ascii_of_string].
  destruct (in_class illegal_chars c) eqn:E.
  - rewrite IH. apply in_class_illegal in E. split.
    + intros Hall x [<- | Hx]; [exact E | by apply Hall].
    + intros Hall x Hx. apply Hall. by right.
  - split; [discriminate|]. intros Hall.
    assert (Hc : in_class illegal_chars c = true)
      by (apply in_class_illegal, Hall; by left).
    congruence.
Qed.

(** ** The further theorems at the posts *)

(** An empty info dictionary, through the theorem of X2. *)
Lemma video_failure_message_witness :
  download_video_max_quality str_scalar empty_info_tool demo_self demo_url demo_world
  = (Ok (failure (KeyError "id")),
     World (fs demo_world) [EvExtractInfo demo_url])
  /\ is_failure (failure (KeyError "id"))
  /\ ((∅ : dict) !! "id" = None
      /\ failure (KeyError "id") !! "error" = Some (VStr "'id'")
      \/ is_Some ((∅ : dict) !! "id") /\ (∅ : dict) !! "ext" = None
         /\ failure (KeyError "id") !! "error" = Some (VStr "'ext'")).
Proof.
  assert (Hrun : download_video_max_quality str_scalar empty_info_tool
                   demo_self demo_url demo_world
                 = (Ok (failure (KeyError "id")),
                    World (fs demo_world) [EvExtractInfo demo_url]))
    by (vm_compute; reflexivity).
  split; [exact Hrun|]. split; [reflexivity|].
  exact (video_failure_message str_scalar empty_info_tool demo_self demo_url
           demo_world _ _ Hrun eq_refl).
Defined.

(** The post without a height, through the theorem of X3: the tool wrote
    [42_NAp.mp4], the adapter reports [42_Nonep.mp4] with size [0]. *)
Lemma video_success_without_file_reports_zero_witness :
  video_filename str_scalar demo_self demo_info_without_height (VStr "42") (VStr "mp4")
  = "twitter_downloads/42_Nonep.mp4"
  /\ exists d w',
       download_video_max_quality str_scalar video_without_height_tool
         demo_self demo_url demo_world = (Ok d, w')
       /\ is_success d
       /\ d !! "filename"
          = Some (VStr (video_filename str_scalar demo_self demo_info_without_height
                          (VStr "42") (VStr "mp4")))
       /\ d !! "size_mb" = Some (VInt 0)
       /\ fs w' !! video_filename str_scalar demo_self demo_info_without_height
                     (VStr "42") (VStr "mp4") = None.
Proof.
  split; [reflexivity|].
  apply (video_success_without_file_reports_zero str_scalar video_without_height_tool
           demo_self demo_url demo_world demo_info_without_height
           (VStr "42") (VStr "mp4")); vm_compute; reflexivity.
Defined.



(** The video post and the image post, through the theorem of X10. *)
Lemma success_size_within_half_a_hundredth_witness :
  (exists k,
      demo_video_record !! "size_mb" = Some (VFloat (k # 100))
      /\ 2 * Z.abs (100 * Z.of_N 131072 - 1048576 * k) <= 1048576)
  /\ (exists k,
        demo_image_record !! "size_mb" = Some (VFloat (k # 100))
        /\ 2 * Z.abs
               (100 * Z.of_N
                        (total_size demo_fs_after_images
                           (elements
                              (listing (output_folder demo_self) demo_fs_after_images ∖
                               listing (output_folder demo_self) (fs demo_world))))
                - 1048576 * k) <= 1048576).
Proof.
  destruct (success_size_within_half_a_hundredth str_scalar elements elements_perm
              video_post_tool image_post_tool) as [Hvideo Himages].
  split.
  - exact (Hvideo demo_self demo_url (announced demo_url demo_world)
             demo_video_record demo_world_after_video
             "twitter_downloads/42_720p.mp4" 131072%N
             demo_video_run eq_refl eq_refl eq_refl).
  - exact (Himages demo_self demo_url demo_world demo_image_record
             (World demo_fs_after_images
                    [EvSubprocess (gallery_dl_cmd demo_self demo_url)])
             (demo_images_run demo_world eq_refl) eq_refl).
Defined.

(** * The runtime in full *)

Lemma yields_ret {A} (Q : A -> Prop) E a : Q a -> yields Q E (ret a).
Proof. intros H w. exact H. Qed.

Lemma yields_raise {A} (Q : A -> Prop) (E : exn -> Prop) e : E e -> yields Q E (raise e).
Proof. intros H w. exact H. Qed.

Lemma yields_lift_res {A} (Q : A -> Prop) (E : exn -> Prop) (r : res A) :
  match r with Ok a => Q a | Raise e => E e end -> yields Q E (lift_res r).
Proof. intros H w. exact H. Qed.

Lemma yields_bind {A B} (Q1 : A -> Prop) (Q : B -> Prop) E (m : M A) (k : A -> M B) :
  yields Q1 E m -> (forall a, Q1 a -> yields Q E (k a)) -> yields Q E (bind m k).
Proof.
  intros H1 H2 w. unfold bind. specialize (H1 w).
  destruct (m w) as [[a|e] w1]; simpl in H1.
  - by apply H2.
  - exact H1.
Qed.

Lemma yields_try_except {A} (Q : A -> Prop) (E1 E : exn -> Prop) (body : M A) handler :
  yields Q E1 body ->
  (forall e, E1 e -> is_exception e = true -> yields Q E (handler e)) ->
  (forall e, E1 e -> is_exception e = false -> E e) ->
  yields Q E (Full.try_except body handler).
Proof.
  intros Hb Hh He w. unfold Full.try_except. specialize (Hb w).
  destruct (body w) as [[a|e] w1]; simpl in Hb.
  - exact Hb.
  - destruct (is_exception e) eqn:Ee.
    + by apply Hh.
    + by apply He.
Qed.

Lemma failure_shape type e : outcome_shape type (failure e).
Proof.
  split; [reflexivity|]. right. split; [reflexivity|]. eexists. reflexivity.
Qed.

(** ** The bodies of the adapters, whatever is raised *)

Section Bodies.

Variable rt : runtime.

(** [E] holds of what the runtime raises and of the exceptions of the
    interpreter. *)
Variable E : exn -> Prop.
Hypothesis E_print : forall m e, rt_print rt m = Some e -> E e.
Hypothesis E_ydl_new : forall o e, rt_ydl_new rt o = Some e -> E e.
Hypothesis E_extract_info : forall o u f e, (rt_extract_info rt o u f).1 = Raise e -> E e.
Hypothesis E_subprocess_run :
  forall c t f e, (rt_subprocess_run rt c t f).1 = Raise e -> E e.
Hypothesis E_stat : forall f p e, rt_stat rt f p = Some e -> E e.
Hypothesis E_exception : forall e, is_exception e = true -> E e.

Lemma yields_print m : yields (fun _ => True) E (Full.print rt m).
Proof.
  unfold Full.print. destruct (rt_print rt m) as [e|] eqn:Ep.
  - apply yields_raise. by eapply E_print.
  - intros w. exact I.
Qed.

Lemma yields__print self m force :
  yields (fun _ => True) E (Full._print rt self m force).
Proof.
  unfold Full._print. destruct (verbose self || force).
  - apply yields_print.
  - by apply yields_ret.
Qed.

Lemma yields_YoutubeDL o : yields (fun _ => True) E (Full.YoutubeDL rt o).
Proof.
  unfold Full.YoutubeDL. destruct (rt_ydl_new rt o) as [e|] eqn:Ey.
  - apply yields_raise. by eapply E_ydl_new.
  - by apply yields_ret.
Qed.

Lemma yields_extract_info o u :
  yields (fun _ => True) E (ydl_extract_info (rt_extract_info rt) o u).
Proof.
  intros w. unfold ydl_extract_info.
  destruct (rt_extract_info rt o u (fs w)) as [r f] eqn:Et. simpl.
  destruct r as [a|e]; [exact I|].
  apply (E_extract_info o u (fs w)). by rewrite Et.
Qed.

Lemma yields_run_subprocess c t :
  yields (fun _ => True) E (run_subprocess (rt_subprocess_run rt) c t).
Proof.
  intros w. unfold run_subprocess.
  destruct (rt_subprocess_run rt c t (fs w)) as [r f] eqn:Et. simpl.
  destruct r as [a|e]; [exact I|].
  apply (E_subprocess_run c t (fs w)). by rewrite Et.
Qed.

Lemma yields_stat_size p : yields (fun _ => True) E (Full.stat_size rt p).
Proof.
  intros w. unfold Full.stat_size, Full.stat. simpl.
  destruct (rt_stat rt (fs w) p) as [e|] eqn:Es.
  - by eapply E_stat.
  - destruct (fs w !! p); [exact I | by apply E_exception].
Qed.

Lemma yields_sum_sizes l : yields (fun _ => True) E (Full.sum_sizes rt l).
Proof.
  induction l as [|p l IH]; simpl.
  - by apply yields_ret.
  - eapply yields_bind; [apply yields_stat_size|]. intros n _.
    eapply yields_bind; [apply IH|]. intros total _. by apply yields_ret.
Qed.

Lemma yields_getitem (d : dict) k :
  yields (fun _ => True) E (lift_res (dict_getitem d k)).
Proof.
  apply yields_lift_res. unfold dict_getitem.
  destruct (d !! k); [exact I | by apply E_exception].
Qed.

Lemma yields_video_body self url :
  yields (outcome_shape "video") E (Full.video_body rt self url).
Proof.
  unfold Full.video_body.
  eapply yields_bind; [apply yields_YoutubeDL|]. intros _ _.
  eapply yields_bind; [apply yields__print|]. intros _ _.
  eapply yields_bind; [apply yields_extract_info|]. intros [info|] _.
  - eapply yields_bind; [apply yields_getitem|]. intros id _.
    eapply yields_bind; [apply yields_getitem|]. intros ext _.
    eapply yields_bind with (Q1 := fun _ => True); [intros w; exact I|].
    intros present _.
    eapply yields_bind with (Q1 := fun _ => True).
    + destruct present.
      * eapply yields_bind; [apply yields_stat_size|]. intros n _. by apply yields_ret.
      * by apply yields_ret.
    + intros size_mb _. apply yields_ret.
      split; [reflexivity|]. left. split; reflexivity.
  - by apply yields_raise, E_exception.
Qed.

Lemma yields_images_body self url :
  yields (outcome_shape "images") E (Full.images_body rt self url).
Proof.
  unfold Full.images_body. cbn zeta.
  eapply yields_bind; [apply yields__print|]. intros _ _.
  eapply yields_bind with (Q1 := fun _ => True); [intros w; exact I|]. intros before _.
  eapply yields_bind; [apply yields_run_subprocess|]. intros result _.
  eapply yields_bind with (Q1 := fun _ => True); [intros w; exact I|]. intros after _.
  destruct ((returncode result =? 0) && _).
  - eapply yields_bind; [apply yields_sum_sizes|]. intros total _.
    apply yields_ret. split; [reflexivity|]. left. split; reflexivity.
  - apply yields_ret. split; [reflexivity|]. right. split; [reflexivity|].
    eexists. reflexivity.
Qed.

End Bodies.

(** What an adapter returns, when it returns. *)
Lemma full_video_shape rt self url w d w' :
  Full.download_video_max_quality rt self url w = (Ok d, w') ->
  outcome_shape "video" d.
Proof.
  intros Hrun.
  assert (H : yields (outcome_shape "video") (fun _ => True)
                (Full.download_video_max_quality rt self url)).
  { unfold Full.download_video_max_quality.
    eapply yields_try_except with (E1 := fun _ => True).
    - by apply yields_video_body.
    - intros e _ _. apply yields_ret, failure_shape.
    - done. }
  specialize (H w). by rewrite Hrun in H.
Qed.

Lemma full_images_shape rt self url w d w' :
  Full.download_images_max_quality rt self url w = (Ok d, w') ->
  outcome_shape "images" d.
Proof.
  intros Hrun.
  assert (H : yields (outcome_shape "images") (fun _ => True)
                (Full.download_images_max_quality rt self url)).
  { unfold Full.download_images_max_quality.
    eapply yields_try_except with (E1 := fun _ => True).
    - by apply yields_images_body.
    - intros e _ _. apply yields_ret, failure_shape.
    - done. }
  specialize (H w). by rewrite Hrun in H.
Qed.

(** An adapter returns when whatever is raised derives from [Exception]. *)
Lemma full_video_returns rt self url w :
  raises_exceptions_only rt ->
  exists d w', Full.download_video_max_quality rt self url w = (Ok d, w').
Proof.
  intros (Hp & Hy & He & Hs & Hst & _).
  assert (H : yields (fun _ => True) (fun _ => False)
                (Full.download_video_max_quality rt self url)).
  { unfold Full.download_video_max_quality.
    eapply yields_try_except with (E1 := fun e => is_exception e = true).
    - intros w0.
      pose proof (yields_video_body rt (fun e => is_exception e = true)
                    Hp Hy He Hst (fun e H => H) self url w0) as Hb.
      destruct (Full.video_body rt self url w0).1; [exact I | exact Hb].
    - intros e _ _. by apply yields_ret.
    - intros e He1 He2. simpl in He1. congruence. }
  specialize (H w).
  destruct (Full.download_video_max_quality rt self url w) as [[d|e] w'];
    [by eexists _, _ | destruct H].
Qed.

Lemma full_images_returns rt self url w :
  raises_exceptions_only rt ->
  exists d w', Full.download_images_max_quality rt self url w = (Ok d, w').
Proof.
  intros (Hp & Hy & He & Hs & Hst & _).
  assert (H : yields (fun _ => True) (fun _ => False)
                (Full.download_images_max_quality rt self url)).
  { unfold Full.download_images_max_quality.
    eapply yields_try_except with (E1 := fun e => is_exception e = true).
    - intros w0.
      pose proof (yields_images_body rt (fun e => is_exception e = true)
                    Hp Hs Hst (fun e H => H) self url w0) as Hb.
      destruct (Full.images_body rt self url w0).1; [exact I | exact Hb].
    - intros e _ _. by apply yields_ret.
    - intros e He1 He2. simpl in He1. congruence. }
  specialize (H w).
  destruct (Full.download_images_max_quality rt self url w) as [[d|e] w'];
    [by eexists _, _ | destruct H].
Qed.

(** [download] once its line is printed: the adapters decide. *)
Lemma full_download_unfold rt self url w :
  rt_print rt (nl ++ "Downloading: " ++ url) = None ->
  Full.download rt self url w =
  match Full.download_video_max_quality rt self url (announced url w) with
  | (Ok video_result, w2) =>
      match dict_getitem video_result "success" with
      | Ok video_ok =>
          if truthy video_ok then (Ok (<["url" := VStr url]> video_result), w2)
          else
            match Full.download_images_max_quality rt self url w2 with
            | (Ok image_result, w3) =>
                match dict_getitem image_result "success" with
                | Ok image_ok =>
                    if truthy image_ok
                    then (Ok (<["url" := VStr url]> image_result), w3)
                    else (Ok image_result, w3)
                | Raise e => (Raise e, w3)
                end
            | (Raise e, w3) => (Raise e, w3)
            end
      | Raise e => (Raise e, w2)
      end
  | (Raise e, w2) => (Raise e, w2)
  end.
Proof.
  intros Hbanner.
  unfold Full.download, bind, Full._print, Full.print.
  replace (verbose self || negb (verbose self)) with true
    by (destruct (verbose self); reflexivity).
  rewrite Hbanner. unfold emit. fold (announced url w).
  destruct (Full.download_video_max_quality rt self url (announced url w))
    as [[vr|e] w2]; [|reflexivity].
  unfold lift_res, ret.
  destruct (dict_getitem vr "success") as [ok|e]; [|reflexivity].
  destruct (truthy ok); [reflexivity|].
  destruct (Full.download_images_max_quality rt self url w2) as [[ir|e] w3]; [|reflexivity].
  destruct (dict_getitem ir "success") as [ok'|e]; [|reflexivity].
  destruct (truthy ok'); reflexivity.
Qed.

(** What [download] returns, when it returns. *)
Lemma full_download_shape rt self url w d w' :
  Full.download rt self url w = (Ok d, w') ->
  discriminated d
  /\ (is_success d -> d !! "url" = Some (VStr url)).
Proof.
  unfold Full.download, bind.
  destruct (Full._print rt self _ _ w) as [[[]|e0] w1]; [|discriminate].
  destruct (Full.download_video_max_quality rt self url w1) as [[vr|e] w2] eqn:Hv;
    [|discriminate].
  apply full_video_shape in Hv as (Hurl & Hshape).
  unfold lift_res, ret.
  destruct Hshape as [[Hs Ht] | [Hf Hm]].
  - rewrite (getitem_success _ Hs). cbn [truthy]. intros [= <- <-].
    split; [|intros _; apply lookup_insert_eq].
    left. split; [unfold is_success; by rewrite lookup_insert_ne|].
    left. by rewrite lookup_insert_ne.
  - rewrite (getitem_failure _ Hf). cbn [truthy].
    destruct (Full.download_images_max_quality rt self url w2) as [[ir|e] w3] eqn:Hi;
      [|discriminate].
    apply full_images_shape in Hi as (Hiurl & Hishape).
    destruct Hishape as [[Hs Ht] | [Hf' Hm']].
    + rewrite (getitem_success _ Hs). cbn [truthy]. intros [= <- <-].
      split; [|intros _; apply lookup_insert_eq].
      left. split; [unfold is_success; by rewrite lookup_insert_ne|].
      right. by rewrite lookup_insert_ne.
    + rewrite (getitem_failure _ Hf'). cbn [truthy]. intros [= <- <-].
      split; [by right|]. intros Hs. destruct (success_not_failure _ Hs Hf').
Qed.

(** [download] returns when whatever is raised derives from [Exception]
    and its line is printed. *)
Lemma full_download_returns rt self url w :
  raises_exceptions_only rt ->
  rt_print rt (nl ++ "Downloading: " ++ url) = None ->
  exists d w', Full.download rt self url w = (Ok d, w').
Proof.
  intros Hrt Hbanner.
  rewrite (full_download_unfold _ _ _ _ Hbanner).
  destruct (full_video_returns rt self url (announced url w) Hrt) as (vr & w2 & Hv).
  rewrite Hv. destruct (full_video_shape _ _ _ _ _ _ Hv) as (_ & [[Hs _] | [Hf _]]).
  - rewrite (getitem_success _ Hs). cbn [truthy]. by eexists _, _.
  - rewrite (getitem_failure _ Hf). cbn [truthy].
    destruct (full_images_returns rt self url w2 Hrt) as (ir & w3 & Hi).
    rewrite Hi. destruct (full_images_shape _ _ _ _ _ _ Hi) as (_ & [[Hs _] | [Hf' _]]).
    + rewrite (getitem_success _ Hs). cbn [truthy]. by eexists _, _.
    + rewrite (getitem_failure _ Hf'). cbn [truthy]. by eexists _, _.
Qed.

(** C6 (as amended): when whatever the tools and the interpreter raise
    derives from [Exception], and the line that announces the download is
    printed, [download] returns: it raises nothing, and what it returns is
    a success tagged video or images, or a failure with a message. *)
Theorem download_returns_when_only_exceptions_are_raised :
  forall rt self url w,
    raises_exceptions_only rt ->
    rt_print rt (nl ++ "Downloading: " ++ url) = None ->
    exists d w',
      Full.download rt self url w = (Ok d, w')
      /\ ((is_success d
           /\ (d !! "type" = Some (VStr "video") \/ d !! "type" = Some (VStr "images")))
          \/ (is_failure d /\ exists msg, d !! "error" = Some (VStr msg))).
Proof.
  intros rt self url w Hrt Hbanner.
  destruct (full_download_returns rt self url w Hrt Hbanner) as (d & w' & Hrun).
  exists d, w'. split; [exact Hrun|].
  by apply full_download_shape in Hrun as [? _].
Qed.

(** C6, the claim as stated: [download] raises what the user's interrupt
    raises in the video tool, and what [print] raises on a closed standard
    output. *)
Lemma download_propagates_what_is_not_caught :
  Full.download (demo_runtime interrupted_tool warning_only_tool)
    demo_self demo_url demo_world
  = (Raise (Exn "KeyboardInterrupt" ""),
     World (fs demo_world) [demo_banner; EvExtractInfo demo_url])
  /\ Full.download closed_stdout_runtime demo_self demo_url demo_world
     = (Raise (Exn "ValueError" "I/O operation on closed file."), demo_world).
Proof. split; reflexivity. Qed.

(** ** The image adapter on the full runtime *)

Lemma full_sum_sizes_world rt l w : (Full.sum_sizes rt l w).2 = w.
Proof.
  revert w. induction l as [|p l IH]; intros w; [reflexivity|].
  simpl. unfold bind, Full.stat_size.
  destruct (Full.stat rt p (fs w)); [|reflexivity].
  specialize (IH w). destruct (Full.sum_sizes rt l w) as [[total|e] w1]; exact IH.
Qed.

Lemma full_stat_ok rt p f n : Full.stat rt p f = Ok n -> f !! p = Some n.
Proof.
  unfold Full.stat. destruct (rt_stat rt f p); [discriminate|].
  destruct (f !! p); [congruence | discriminate].
Qed.

(** With every file sized, the sum is the bytes the files hold. *)
Lemma full_sum_sizes_ok rt l w :
  (forall p, p ∈ l -> exists n, Full.stat rt p (fs w) = Ok n) ->
  Full.sum_sizes rt l w = (Ok (total_size (fs w) l), w).
Proof.
  induction l as [|p l IH]; intros Hall; [reflexivity|].
  simpl. unfold bind, Full.stat_size.
  destruct (Hall p) as [n Hn]; [by left|]. rewrite Hn.
  rewrite IH by (intros q Hq; apply Hall; by right).
  unfold ret. by rewrite (full_stat_ok _ _ _ _ Hn).
Qed.

(** The sum raises what sizing one of the files raises. *)
Lemma full_sum_sizes_raise rt l w e :
  (Full.sum_sizes rt l w).1 = Raise e ->
  exists p, p ∈ l /\ Full.stat rt p (fs w) = Raise e.
Proof.
  induction l as [|p l IH]; [discriminate|].
  simpl. unfold bind, Full.stat_size.
  destruct (Full.stat rt p (fs w)) as [n|e0] eqn:Hp.
  - pose proof (full_sum_sizes_world rt l w) as Hw.
    destruct (Full.sum_sizes rt l w) as [[total|e1] w1]; simpl in *.
    + discriminate.
    + intros [= ->]. destruct IH as (q & Hq & Hraise); [reflexivity|].
      exists q. split; [by right | exact Hraise].
  - simpl. intros [= ->]. exists p. split; [by left | exact Hp].
Qed.

(** The body of the image adapter when its line cannot be printed. *)
Lemma full_images_body_unprinted rt self url w e :
  verbose self = true ->
  rt_print rt "  Downloading images..." = Some e ->
  Full.images_body rt self url w = (Raise e, w).
Proof.
  intros Hv Hp. unfold Full.images_body, bind, Full._print, Full.print.
  by rewrite Hv, Hp.
Qed.

(** The body of the image adapter from the tool on. *)
Lemma full_images_body_run rt self url w r fs' :
  (verbose self = true -> rt_print rt "  Downloading images..." = None) ->
  rt_subprocess_run rt (gallery_dl_cmd self url) 120 (fs w) = (r, fs') ->
  let w1 := World fs' (images_trace self url (trace w)) in
  let new_files :=
    listing (output_folder self) fs' ∖ listing (output_folder self) (fs w) in
  Full.images_body rt self url w =
  match r with
  | Raise e => (Raise e, w1)
  | Ok cp =>
      if (returncode cp =? 0) && negb (bool_decide (new_files = ∅)) then
        match (Full.sum_sizes rt (rt_set_iter rt new_files) w1).1 with
        | Ok total =>
            (Ok (list_to_map
                   [ ("success", VBool true);
                     ("type", VStr "images");
                     ("count", VInt (Z.of_nat (size new_files)));
                     ("size_mb", py_round2 (bytes_to_mb total));
                     ("files", VList (rt_set_iter rt new_files)) ]), w1)
        | Raise e => (Raise e, w1)
        end
      else
        (Ok (list_to_map
               [ ("success", VBool false);
                 ("error", VStr (str_or (stderr cp) "No images found")) ]), w1)
  end.
Proof.
  intros Hp Htool w1 new_files.
  unfold Full.images_body, bind.
  assert (Hprint : Full._print rt self "  Downloading images..." false w
                   = (Ok tt, World (fs w)
                               (trace w ++ if verbose self
                                           then [EvPrint "  Downloading images..."]
                                           else []))).
  { unfold Full._print, Full.print. destruct (verbose self) eqn:Hv; cbn [orb].
    - by rewrite (Hp eq_refl).
    - unfold ret. rewrite app_nil_r. by destruct w. }
  rewrite Hprint. unfold glob_star, run_subprocess. cbn [fs trace].
  rewrite Htool. fold (images_trace self url (trace w)). fold w1.
  destruct r as [cp|e]; [|reflexivity].
  change (fs w1) with fs'. fold new_files.
  destruct ((returncode cp =? 0) && negb (bool_decide (new_files = ∅))); [|reflexivity].
  pose proof (full_sum_sizes_world rt (rt_set_iter rt new_files) w1) as Hw.
  destruct (Full.sum_sizes rt (rt_set_iter rt new_files) w1) as [[total|e] w2];
    simpl in Hw; subst w2; reflexivity.
Qed.

Lemma full_try_ok {A} (body : M A) handler w a w' :
  body w = (Ok a, w') -> Full.try_except body handler w = (Ok a, w').
Proof. unfold Full.try_except. by intros ->. Qed.

Lemma full_try_raise {A} (body : M A) handler w e w' :
  body w = (Raise e, w') ->
  Full.try_except body handler w =
  if is_exception e then handler e w' else (Raise e, w').
Proof. unfold Full.try_except. by intros ->. Qed.

(** The adapter's outcome when its result is known: its line could not be
    printed, or the tool was run and the outcome follows from it. *)
Lemma full_images_inv rt self url w d w' :
  Full.download_images_max_quality rt self url w = (Ok d, w') ->
  let tool := rt_subprocess_run rt (gallery_dl_cmd self url) 120 (fs w) in
  let new_files :=
    listing (output_folder self) tool.2 ∖ listing (output_folder self) (fs w) in
  let w1 := World tool.2 (images_trace self url (trace w)) in
  (exists e, verbose self = true
             /\ rt_print rt "  Downloading images..." = Some e
             /\ Full.images_body rt self url w = (Raise e, w)
             /\ d = failure e)
  \/ ((verbose self = true -> rt_print rt "  Downloading images..." = None)
      /\ match tool.1 with
         | Raise e => Full.images_body rt self url w = (Raise e, w1) /\ d = failure e
         | Ok cp =>
             if (returncode cp =? 0) && negb (bool_decide (new_files = ∅)) then
               match (Full.sum_sizes rt (rt_set_iter rt new_files) w1).1 with
               | Ok total =>
                   d = list_to_map
                         [ ("success", VBool true);
                           ("type", VStr "images");
                           ("count", VInt (Z.of_nat (size new_files)));
                           ("size_mb", py_round2 (bytes_to_mb total));
                           ("files", VList (rt_set_iter rt new_files)) ]
               | Raise e =>
                   Full.images_body rt self url w = (Raise e, w1) /\ d = failure e
               end
             else
               Full.images_body rt self url w = (Ok d, w1)
               /\ d = list_to_map
                        [ ("success", VBool false);
                          ("error", VStr (str_or (stderr cp) "No images found")) ]
         end).
Proof.
  intros Hrun tool new_files w1.
  assert (Hcatch : forall e w0,
             Full.images_body rt self url w = (Raise e, w0) -> d = failure e).
  { intros e w0 Hb. unfold Full.download_images_max_quality in Hrun.
    rewrite (full_try_raise _ _ _ _ _ Hb) in Hrun.
    destruct (is_exception e); [|discriminate]. by injection Hrun as <- _. }
  assert (Hpass : forall d0 w0,
             Full.images_body rt self url w = (Ok d0, w0) -> d = d0).
  { intros d0 w0 Hb. unfold Full.download_images_max_quality in Hrun.
    rewrite (full_try_ok _ _ _ _ _ Hb) in Hrun. by injection Hrun as <- _. }
  assert (Hcases : (exists e, verbose self = true
                              /\ rt_print rt "  Downloading images..." = Some e)
                   \/ (verbose self = true
                       -> rt_print rt "  Downloading images..." = None)).
  { destruct (verbose self); [|right; discriminate].
    destruct (rt_print rt "  Downloading images...") as [e|]; [left|right]; eauto. }
  destruct Hcases as [(e & Hv & Hp) | Hp].
  - left. exists e. split; [exact Hv|]. split; [exact Hp|].
    pose proof (full_images_body_unprinted rt self url w e Hv Hp) as Hb.
    split; [exact Hb | by eapply Hcatch].
  - right. split; [exact Hp|].
    pose proof (full_images_body_run rt self url w tool.1 tool.2 Hp) as Hb.
    cbn zeta in Hb. fold new_files w1 in Hb.
    specialize (Hb ltac:(subst tool; by destruct (rt_subprocess_run _ _ _ _))).
    destruct tool.1 as [cp|e].
    + destruct ((returncode cp =? 0) && negb (bool_decide (new_files = ∅))).
      * destruct (Full.sum_sizes rt (rt_set_iter rt new_files) w1).1 as [total|e].
        -- by eapply Hpass.
        -- split; [exact Hb | by eapply Hcatch].
      * pose proof (Hpass _ _ Hb) as ->. by split.
    + split; [exact Hb | by eapply Hcatch].
Qed.

(** C4 (as amended): the image adapter returns a success only when the tool
    returned with exit code zero and the folder gained an entry; with exit
    code zero and new entries whose sizes can all be read it returns a
    success; with exit code zero and no new entry it returns a failure,
    whose message is ["No images found"] when the tool wrote nothing on its
    standard error, and what the tool wrote there otherwise. *)
Theorem images_success_needs_exit_zero_new_files_and_sizes :
  forall rt self url w,
    (forall X, rt_set_iter rt X ≡ₚ elements X) ->
    let tool := rt_subprocess_run rt (gallery_dl_cmd self url) 120 (fs w) in
    let new_files :=
      listing (output_folder self) tool.2 ∖ listing (output_folder self) (fs w) in
    (forall d w',
        Full.download_images_max_quality rt self url w = (Ok d, w') ->
        is_success d ->
        exists cp, tool.1 = Ok cp /\ returncode cp = 0 /\ new_files ≠ ∅)
    /\ (forall cp,
          tool.1 = Ok cp ->
          returncode cp = 0 ->
          (verbose self = true -> rt_print rt "  Downloading images..." = None) ->
          (new_files ≠ ∅ ->
           (forall p, p ∈ new_files -> rt_stat rt tool.2 p = None) ->
           exists d w',
             Full.download_images_max_quality rt self url w = (Ok d, w')
             /\ is_success d)
          /\ (new_files = ∅ ->
              exists d w',
                Full.download_images_max_quality rt self url w = (Ok d, w')
                /\ is_failure d
                /\ (stderr cp = "" -> d !! "error" = Some (VStr "No images found"))
                /\ (stderr cp ≠ "" -> d !! "error" = Some (VStr (stderr cp))))).
Proof.
  intros rt self url w Hperm tool new_files.
  split.
  - intros d w' Hrun Hok.
    destruct (full_images_inv rt self url w d w' Hrun)
      as [(e & _ & _ & _ & ->) | [_ Hd]]; [discriminate Hok|].
    fold tool new_files in Hd.
    destruct tool.1 as [cp|e]; [|destruct Hd as [_ ->]; discriminate Hok].
    exists cp. split; [reflexivity|].
    destruct (returncode cp =? 0) eqn:Ecode;
      [|cbn [andb] in Hd; destruct Hd as [_ ->]; discriminate Hok].
    split; [by apply Z.eqb_eq|].
    intros Hempty. rewrite bool_decide_eq_true_2 in Hd by exact Hempty.
    cbn [andb negb] in Hd. destruct Hd as [_ ->]. discriminate Hok.
  - intros cp Hcp Hzero Hp.
    pose proof (full_images_body_run rt self url w tool.1 tool.2 Hp) as Hb.
    cbn zeta in Hb. fold new_files in Hb.
    specialize (Hb ltac:(subst tool; by destruct (rt_subprocess_run _ _ _ _))).
    rewrite Hcp in Hb.
    apply Z.eqb_eq in Hzero. rewrite Hzero in Hb. cbn [andb] in Hb.
    split.
    + intros Hnew Hstat.
      rewrite bool_decide_eq_false_2 in Hb by exact Hnew. cbn [negb] in Hb.
      rewrite full_sum_sizes_ok in Hb.
      * eexists _, _. split.
        -- unfold Full.download_images_max_quality. apply full_try_ok. exact Hb.
        -- reflexivity.
      * intros p Hin. cbn [fs].
        assert (Hp' : p ∈ new_files) by (by rewrite Hperm, elem_of_elements in Hin).
        unfold Full.stat. rewrite (Hstat p Hp').
        apply elem_of_difference in Hp' as [Hlisted _].
        apply listing_stat in Hlisted as [n Hn]. rewrite Hn. by exists n.
    + intros Hempty.
      rewrite bool_decide_eq_true_2 in Hb by exact Hempty. cbn [negb] in Hb.
      eexists _, _. split.
      * unfold Full.download_images_max_quality. apply full_try_ok. exact Hb.
      * split; [reflexivity|]. split.
        -- intros ->. reflexivity.
        -- intros Hne. by rewrite (str_or_nonempty _ _ Hne).
Qed.

(** C7 (as amended): on a failure of the image adapter the message is the
    text of the exception raised inside the adapter, if one was: by
    printing the adapter's line, by the invocation of the tool (a timeout
    included), or by reading the size of a new file; otherwise the tool
    returned, and the message is its standard-error text when that is not
    empty and ["No images found"] when it is. *)
Theorem images_failure_message_is_exception_text_or_stderr :
  forall rt self url w d w',
    Full.download_images_max_quality rt self url w = (Ok d, w') ->
    is_failure d ->
    let tool := rt_subprocess_run rt (gallery_dl_cmd self url) 120 (fs w) in
    let new_files :=
      listing (output_folder self) tool.2 ∖ listing (output_folder self) (fs w) in
    match (Full.images_body rt self url w).1 with
    | Raise e =>
        d !! "error" = Some (VStr (exn_str e))
        /\ ((verbose self = true /\ rt_print rt "  Downloading images..." = Some e)
            \/ tool.1 = Raise e
            \/ (exists cp p,
                  tool.1 = Ok cp /\ returncode cp = 0
                  /\ p ∈ rt_set_iter rt new_files
                  /\ Full.stat rt p tool.2 = Raise e))
    | Ok _ =>
        exists cp,
          tool.1 = Ok cp
          /\ (stderr cp ≠ "" -> d !! "error" = Some (VStr (stderr cp)))
          /\ (stderr cp = "" -> d !! "error" = Some (VStr "No images found"))
    end.
Proof.
  intros rt self url w d w' Hrun Hfail tool new_files.
  destruct (full_images_inv rt self url w d w' Hrun)
    as [(e & Hv & Hp & Hb & ->) | [_ Hd]].
  - rewrite Hb. cbn [fst]. split; [reflexivity|]. by left.
  - fold tool new_files in Hd.
    destruct tool.1 as [cp|e].
    + destruct (returncode cp =? 0) eqn:Ecode.
      * destruct (negb (bool_decide (new_files = ∅))); cbn [andb] in Hd.
        -- destruct (Full.sum_sizes rt (rt_set_iter rt new_files) _).1
             as [total|e] eqn:Hsum.
           ++ subst d. discriminate Hfail.
           ++ destruct Hd as [Hb ->]. rewrite Hb. cbn [fst].
              split; [reflexivity|]. right. right.
              apply full_sum_sizes_raise in Hsum as (p & Hin & Hraise).
              exists cp, p. split; [reflexivity|].
              split; [by apply Z.eqb_eq|]. by split.
        -- destruct Hd as [Hb ->]. rewrite Hb. cbn [fst]. exists cp.
           split; [reflexivity|]. split.
           ++ intros Hne. by rewrite (str_or_nonempty _ _ Hne).
           ++ intros ->. reflexivity.
      * cbn [andb] in Hd. destruct Hd as [Hb ->]. rewrite Hb. cbn [fst]. exists cp.
        split; [reflexivity|]. split.
        -- intros Hne. by rewrite (str_or_nonempty _ _ Hne).
        -- intros ->. reflexivity.
    + destruct Hd as [Hb ->]. rewrite Hb. cbn [fst].
      split; [reflexivity|]. right. by left.
Qed.

(** C7, the claim as stated: the tool returns with exit code zero and an
    empty standard error, no exception is raised by the invocation, and the
    message of the failure is neither of the two: it is the text of the
    exception raised by [stat] on the link the tool has left. *)
Lemma images_failure_message_can_be_a_stat_error :
  dangling_link_tool (gallery_dl_cmd demo_self demo_url) 120 (fs demo_world)
  = (Ok (CompletedProcess 0 "" ""), <[dangling_link := 22%N]> (fs demo_world))
  /\ Full.download_images_max_quality dangling_link_runtime demo_self demo_url demo_world
     = (Ok (failure (FileNotFoundError dangling_link)),
        World (<[dangling_link := 22%N]> (fs demo_world))
              [EvSubprocess (gallery_dl_cmd demo_self demo_url)])
  /\ failure (FileNotFoundError dangling_link) !! "error"
     = Some (VStr "[Errno 2] No such file or directory: 'twitter_downloads/twitter_1_1.jpg'")
  /\ failure (FileNotFoundError dangling_link) !! "error"
     ≠ Some (VStr "No images found").
Proof.
  split; [reflexivity|]. split; [by vm_compute|]. split; [reflexivity|]. discriminate.
Qed.

(** ** The entry point on the full runtime *)

(** An adapter raises only what [except Exception] does not catch. *)
Lemma full_try_raises {A} (body : M A) (h : exn -> A) w e w' :
  Full.try_except body (fun e => ret (h e)) w = (Raise e, w') ->
  is_exception e = false.
Proof.
  unfold Full.try_except. destruct (body w) as [[a|e0] w0]; [discriminate|].
  destruct (is_exception e0) eqn:He; [discriminate|]. by intros [= <- _].
Qed.

(** [download_twitter_media] when the folder is there and [download]
    returns. *)
Lemma full_entry_run_folder rt url w u fs0 d w' :
  rt_makedirs rt "twitter_downloads" (fs w) = (Ok u, fs0) ->
  Full.download rt (Downloader "twitter_downloads" false) url (World fs0 (trace w))
  = (Ok d, w') ->
  (is_success d -> Full.download_twitter_media rt url w = (Ok (Some d, None), w'))
  /\ (is_failure d ->
      Full.download_twitter_media rt url w =
      (Ok (None,
           Some (error_mark ++
                 rt_str rt (dict_get_default d "error" (VStr "Unknown error")))),
       w')).
Proof.
  intros Hmk Hrun.
  split; intros Hd;
    unfold Full.download_twitter_media, Full.try_except, __init__, makedirs, bind;
    rewrite Hmk; unfold ret at 1; cbv beta iota; rewrite Hrun; unfold lift_res.
  - by rewrite (getitem_success _ Hd).
  - by rewrite (getitem_failure _ Hd).
Qed.

(** [download_twitter_media] when its body raises. *)
Lemma full_entry_run_raise rt url w e w1 :
  (downloader <- __init__ (rt_makedirs rt) "twitter_downloads" false ;;
   Full.download rt downloader url)%py w = (Raise e, w1) ->
  Full.download_twitter_media rt url w =
  if is_exception e then
    match rt_print rt ("An unexpected error occurred: " ++ exn_str e) with
    | Some e' => (Raise e', w1)
    | None =>
        (Ok (None,
             Some (error_mark ++ "An unexpected error occurred. Please try again later.")),
         World (fs w1)
               (trace w1 ++ [EvPrint ("An unexpected error occurred: " ++ exn_str e)]))
    end
  else (Raise e, w1).
Proof.
  intros Hb.
  unfold Full.download_twitter_media, Full.try_except.
  unfold bind at 1. unfold bind in Hb.
  destruct (__init__ (rt_makedirs rt) "twitter_downloads" false w) as [[self|e0] w0].
  - unfold bind at 1. rewrite Hb.
    destruct (is_exception e); [|reflexivity].
    unfold bind, Full.print.
    by destruct (rt_print rt ("An unexpected error occurred: " ++ exn_str e)).
  - injection Hb as -> ->.
    destruct (is_exception e); [|reflexivity].
    unfold bind, Full.print.
    by destruct (rt_print rt ("An unexpected error occurred: " ++ exn_str e)).
Qed.

(** X7: [download_twitter_media] returns whenever whatever is raised
    derives from [Exception] and no line fails to print; and whenever it
    returns, it fills one side of its pair: a success record holding the
    request URL under ["url"], with no message, or no record and a message
    that begins with the error mark (so is never empty). *)
Theorem download_twitter_media_returns_one_side :
  forall rt url w,
    (raises_exceptions_only rt ->
     (forall m, rt_print rt m = None) ->
     exists r w', Full.download_twitter_media rt url w = (Ok r, w'))
    /\ (forall r w',
          Full.download_twitter_media rt url w = (Ok r, w') ->
          (exists d, r = (Some d, None)
                     /\ is_success d /\ d !! "url" = Some (VStr url))
          \/ (exists rest, r = (None, Some (error_mark ++ rest)))).
Proof.
  intros rt url w. split.
  - intros Hrt Hprint.
    destruct (rt_makedirs rt "twitter_downloads" (fs w)) as [[u|e] fs0] eqn:Hmk.
    + destruct (full_download_returns rt (Downloader "twitter_downloads" false) url
                  (World fs0 (trace w)) Hrt (Hprint _)) as (d & w' & Hrun).
      destruct (full_entry_run_folder rt url w u fs0 d w' Hmk Hrun) as [Hs Hf].
      destruct (full_download_shape _ _ _ _ _ _ Hrun) as [[[Hok _] | [Hfail _]] _].
      * eexists _, _. by apply Hs.
      * eexists _, _. by apply Hf.
    + assert (He : is_exception e = true).
      { destruct Hrt as (_ & _ & _ & _ & _ & H).
        apply (H "twitter_downloads" (fs w)). by rewrite Hmk. }
      rewrite (full_entry_run_raise rt url w e (World fs0 (trace w))).
      * rewrite He, Hprint. by eexists _, _.
      * unfold bind, __init__, makedirs, bind. by rewrite Hmk.
  - intros r w' Hrun.
    destruct ((downloader <- __init__ (rt_makedirs rt) "twitter_downloads" false ;;
               Full.download rt downloader url)%py w) as [[d|e] w1] eqn:Hb.
    + unfold bind, __init__, makedirs, bind in Hb.
      destruct (rt_makedirs rt "twitter_downloads" (fs w)) as [[u|e] fs0] eqn:Hmk;
        [|discriminate].
      unfold ret at 1 in Hb. cbv beta iota in Hb.
      destruct (full_entry_run_folder rt url w u fs0 d w1 Hmk Hb) as [Hs Hf].
      destruct (full_download_shape _ _ _ _ _ _ Hb) as [[[Hok _] | [Hfail _]] Hurl].
      * rewrite (Hs Hok) in Hrun. injection Hrun as <- _.
        left. exists d. split; [reflexivity|]. split; [exact Hok | by apply Hurl].
      * rewrite (Hf Hfail) in Hrun. injection Hrun as <- _. right. by eexists.
    + rewrite (full_entry_run_raise rt url w e w1 Hb) in Hrun.
      destruct (is_exception e); [|discriminate].
      destruct (rt_print rt _); [discriminate|].
      injection Hrun as <- _. right. by eexists.
Qed.

(** X9: when the folder is there, the line of [download] is printed and
    [download_twitter_media] returns a message, the video adapter has
    failed and the message is the error mark followed by what the image
    adapter gave: the text of the exception raised by the tool or by
    reading the size of a new file, or else the tool's standard error,
    or ["No images found"] when that is empty.  What the video tool said
    is not in it. *)
Theorem download_twitter_media_failure_message :
  forall rt url w u fs0 msg w',
    (forall s, rt_str rt (VStr s) = s) ->
    rt_makedirs rt "twitter_downloads" (fs w) = (Ok u, fs0) ->
    rt_print rt (nl ++ "Downloading: " ++ url) = None ->
    Full.download_twitter_media rt url w = (Ok (None, Some msg), w') ->
    let self := Downloader "twitter_downloads" false in
    exists vr w2,
      Full.download_video_max_quality rt self url (announced url (World fs0 (trace w)))
      = (Ok vr, w2)
      /\ is_failure vr
      /\ let tool := rt_subprocess_run rt (gallery_dl_cmd self url) 120 (fs w2) in
         let new_files :=
           listing "twitter_downloads" tool.2 ∖ listing "twitter_downloads" (fs w2) in
         (exists e, tool.1 = Raise e /\ msg = error_mark ++ exn_str e)
         \/ (exists cp p e,
               tool.1 = Ok cp /\ returncode cp = 0
               /\ p ∈ rt_set_iter rt new_files
               /\ Full.stat rt p tool.2 = Raise e
               /\ msg = error_mark ++ exn_str e)
         \/ (exists cp,
               tool.1 = Ok cp
               /\ msg = error_mark ++
                        if String.eqb (stderr cp) "" then "No images found"
                        else stderr cp).
Proof.
  intros rt url w u fs0 msg w' Hstr Hmk Hbanner Hentry self.
  set (w0 := World fs0 (trace w)).
  destruct (Full.download rt self url w0) as [[d|e] w1] eqn:Hdl.
  - destruct (full_entry_run_folder rt url w u fs0 d w1 Hmk Hdl) as [Hs Hf].
    destruct (full_download_shape _ _ _ _ _ _ Hdl) as [[[Hok _] | [Hfail _]] _].
    { rewrite (Hs Hok) in Hentry. discriminate Hentry. }
    rewrite (Hf Hfail) in Hentry. injection Hentry as <- <-.
    rewrite (full_download_unfold _ _ _ _ Hbanner) in Hdl.
    destruct (Full.download_video_max_quality rt self url (announced url w0))
      as [[vr|e] w2] eqn:Hv; [|discriminate].
    destruct (full_video_shape _ _ _ _ _ _ Hv) as (_ & [[Hvs _] | [Hvf _]]).
    { rewrite (getitem_success _ Hvs) in Hdl. cbn [truthy] in Hdl.
      injection Hdl as <- _. unfold is_failure in Hfail.
      rewrite lookup_insert_ne in Hfail by done.
      destruct (success_not_failure _ Hvs Hfail). }
    rewrite (getitem_failure _ Hvf) in Hdl. cbn [truthy] in Hdl.
    exists vr, w2. split; [reflexivity|]. split; [exact Hvf|].
    destruct (Full.download_images_max_quality rt self url w2) as [[ir|e] w3] eqn:Hi;
      [|discriminate].
    destruct (full_images_shape _ _ _ _ _ _ Hi) as (_ & [[His _] | [Hif _]]).
    { rewrite (getitem_success _ His) in Hdl. cbn [truthy] in Hdl.
      injection Hdl as <- _. unfold is_failure in Hfail.
      rewrite lookup_insert_ne in Hfail by done.
      destruct (success_not_failure _ His Hfail). }
    rewrite (getitem_failure _ Hif) in Hdl. cbn [truthy] in Hdl.
    injection Hdl as <- _.
    destruct (full_images_inv rt self url w2 ir w3 Hi)
      as [(e & Hverb & _) | [_ Hd]]; [discriminate Hverb|].
    cbn zeta. change (output_folder self) with "twitter_downloads" in Hd.
    destruct (rt_subprocess_run rt (gallery_dl_cmd self url) 120 (fs w2)).1 as [cp|e].
    + destruct (returncode cp =? 0) eqn:Ecode.
      * destruct (negb (bool_decide (_ = ∅))); cbn [andb] in Hd.
        -- destruct (Full.sum_sizes rt _ _).1 as [total|e] eqn:Hsum.
           ++ subst ir. discriminate Hif.
           ++ destruct Hd as [_ ->]. right. left.
              apply full_sum_sizes_raise in Hsum as (p & Hin & Hraise).
              exists cp, p, e. split; [reflexivity|].
              split; [by apply Z.eqb_eq|]. split; [exact Hin|].
              split; [exact Hraise|].
              unfold dict_get_default.
              assert (Herr : failure e !! "error" = Some (VStr (exn_str e)))
                by reflexivity.
              by rewrite Herr, Hstr.
        -- destruct Hd as [_ ->]. right. right. exists cp. split; [reflexivity|].
           unfold dict_get_default.
           match goal with |- context [list_to_map ?l !! "error"] =>
             assert (Herr : (list_to_map l : dict) !! "error"
                            = Some (VStr (str_or (stderr cp) "No images found")))
               by reflexivity end.
           rewrite Herr, Hstr. unfold str_or, truthy.
           by destruct (String.eqb (stderr cp) "").
      * cbn [andb] in Hd. destruct Hd as [_ ->]. right. right. exists cp.
        split; [reflexivity|].
        unfold dict_get_default.
        match goal with |- context [list_to_map ?l !! "error"] =>
          assert (Herr : (list_to_map l : dict) !! "error"
                         = Some (VStr (str_or (stderr cp) "No images found")))
            by reflexivity end.
        rewrite Herr, Hstr. unfold str_or, truthy.
        by destruct (String.eqb (stderr cp) "").
    + destruct Hd as [_ ->]. left. exists e. split; [reflexivity|].
      unfold dict_get_default.
      assert (Herr : failure e !! "error" = Some (VStr (exn_str e))) by reflexivity.
      by rewrite Herr, Hstr.
  - rewrite (full_entry_run_raise rt url w e w1) in Hentry.
    + rewrite (full_download_unfold _ _ _ _ Hbanner) in Hdl.
      assert (He : is_exception e = false).
      { destruct (Full.download_video_max_quality rt self url (announced url w0))
          as [[vr|e1] w2] eqn:Hv.
        - destruct (full_video_shape _ _ _ _ _ _ Hv) as (_ & [[Hvs _] | [Hvf _]]).
          + rewrite (getitem_success _ Hvs) in Hdl. discriminate Hdl.
          + rewrite (getitem_failure _ Hvf) in Hdl. cbn [truthy] in Hdl.
            destruct (Full.download_images_max_quality rt self url w2)
              as [[ir|e2] w3] eqn:Hi.
            * destruct (full_images_shape _ _ _ _ _ _ Hi) as (_ & [[His _] | [Hif _]]).
              -- rewrite (getitem_success _ His) in Hdl. discriminate Hdl.
              -- rewrite (getitem_failure _ Hif) in Hdl. discriminate Hdl.
            * injection Hdl as <- _.
              by apply full_try_raises in Hi.
        - injection Hdl as <- _. by apply full_try_raises in Hv. }
      rewrite He in Hentry. discriminate Hentry.
    + unfold bind, __init__, makedirs, bind. rewrite Hmk.
      unfold ret at 1. cbv beta iota. exact Hdl.
Qed.

(** ** The two runtimes agree where nothing else is raised *)

Lemma plain_raises_exceptions_only rt :
  plain rt ->
  (forall p f e, (rt_makedirs rt p f).1 = Raise e -> is_exception e = true) ->
  raises_exceptions_only rt.
Proof.
  intros (Hp & Hy & Hst & He & Hs) Hmk.
  split; [intros m e H; by rewrite Hp in H|].
  split; [intros o e H; by rewrite Hy in H|].
  split; [exact He|]. split; [exact Hs|].
  split; [intros f p e H; by rewrite Hst in H | exact Hmk].
Qed.

Section Agreement.

Variable rt : runtime.
Hypothesis rt_plain : plain rt.

Lemma full_print_agrees self m force w :
  Full._print rt self m force w = _print self m force w.
Proof.
  unfold Full._print, _print, Full.print.
  destruct rt_plain as (Hp & _). by rewrite Hp.
Qed.

Lemma full_stat_size_agrees p w : Full.stat_size rt p w = stat_size p w.
Proof.
  unfold Full.stat_size, stat_size, Full.stat.
  destruct rt_plain as (_ & _ & Hst & _). rewrite Hst.
  by destruct (fs w !! p).
Qed.

Lemma full_path_exists_agrees p w : Full.path_exists rt p w = path_exists p w.
Proof.
  unfold Full.path_exists, path_exists, Full.stat.
  destruct rt_plain as (_ & _ & Hst & _). rewrite Hst.
  destruct (fs w !! p) as [n|] eqn:Hp.
  - by rewrite bool_decide_eq_true_2 by eauto.
  - by rewrite bool_decide_eq_false_2 by (intros [? ?]; congruence).
Qed.

Lemma full_sum_sizes_agrees l w : Full.sum_sizes rt l w = sum_sizes l w.
Proof.
  induction l as [|p l IH]; [reflexivity|].
  simpl. unfold bind. rewrite full_stat_size_agrees.
  destruct (stat_size p w) as [[n|e] w1] eqn:Hp; [|reflexivity].
  assert (w1 = w) as ->.
  { unfold stat_size in Hp. destruct (fs w !! p); by injection Hp. }
  by rewrite IH.
Qed.

Lemma full_video_body_agrees self url w :
  Full.video_body rt self url w
  = video_body (rt_str rt) (rt_extract_info rt) self url w.
Proof.
  unfold Full.video_body, video_body, bind, Full.YoutubeDL.
  destruct rt_plain as (_ & Hy & _). rewrite Hy. unfold ret at 1.
  rewrite full_print_agrees.
  destruct (_print self "  Downloading video..." false w) as [[[]|e] w1]; [|reflexivity].
  destruct (ydl_extract_info (rt_extract_info rt) (ydl_opts self) url w1)
    as [[[info|]|e] w2]; [|reflexivity|reflexivity].
  destruct (lift_res (dict_getitem info "id") w2) as [[id|e] w3]; [|reflexivity].
  destruct (lift_res (dict_getitem info "ext") w3) as [[ext|e] w4]; [|reflexivity].
  rewrite full_path_exists_agrees.
  destruct (path_exists _ w4) as [[present|e] w5]; [|reflexivity].
  destruct present; [|reflexivity].
  by rewrite full_stat_size_agrees.
Qed.

Lemma full_images_body_agrees self url w :
  Full.images_body rt self url w
  = images_body (rt_set_iter rt) (rt_subprocess_run rt) self url w.
Proof.
  unfold Full.images_body, images_body, bind.
  rewrite full_print_agrees.
  destruct (_print self "  Downloading images..." false w) as [[[]|e] w1]; [|reflexivity].
  destruct (glob_star (output_folder self) w1) as [[before|e] w2]; [|reflexivity].
  destruct (run_subprocess (rt_subprocess_run rt) _ 120 w2) as [[result|e] w3];
    [|reflexivity].
  destruct (glob_star (output_folder self) w3) as [[after|e] w4]; [|reflexivity].
  destruct ((returncode result =? 0) && _); [|reflexivity].
  by rewrite full_sum_sizes_agrees.
Qed.

Lemma full_video_agrees self url w :
  Full.download_video_max_quality rt self url w
  = download_video_max_quality (rt_str rt) (rt_extract_info rt) self url w.
Proof.
  unfold Full.download_video_max_quality, download_video_max_quality,
    Full.try_except, try_except.
  rewrite <- full_video_body_agrees.
  destruct rt_plain as (Hp & Hy & Hst & He & Hs).
  pose proof (yields_video_body rt (fun e => is_exception e = true)
                ltac:(intros m e H; by rewrite Hp in H)
                ltac:(intros o e H; by rewrite Hy in H)
                He
                ltac:(intros f p e H; by rewrite Hst in H)
                (fun e H => H) self url w) as Hb.
  destruct (Full.video_body rt self url w) as [[d|e] w1]; [reflexivity|].
  simpl in Hb. by rewrite Hb.
Qed.

Lemma full_images_agrees self url w :
  Full.download_images_max_quality rt self url w
  = download_images_max_quality (rt_set_iter rt) (rt_subprocess_run rt) self url w.
Proof.
  unfold Full.download_images_max_quality, download_images_max_quality,
    Full.try_except, try_except.
  rewrite <- full_images_body_agrees.
  destruct rt_plain as (Hp & Hy & Hst & He & Hs).
  pose proof (yields_images_body rt (fun e => is_exception e = true)
                ltac:(intros m e H; by rewrite Hp in H)
                Hs
                ltac:(intros f p e H; by rewrite Hst in H)
                (fun e H => H) self url w) as Hb.
  destruct (Full.images_body rt self url w) as [[d|e] w1]; [reflexivity|].
  simpl in Hb. by rewrite Hb.
Qed.

(** On a plain runtime, [download] of this part is [download] of the
    first. *)
Lemma full_download_agrees self url w :
  Full.download rt self url w
  = download (rt_str rt) (rt_set_iter rt) (rt_extract_info rt) (rt_subprocess_run rt)
      self url w.
Proof.
  unfold Full.download, download, bind.
  rewrite full_print_agrees.
  destruct (_print self _ _ w) as [[[]|e] w1]; [|reflexivity].
  rewrite full_video_agrees.
  destruct (download_video_max_quality _ _ self url w1) as [[vr|e] w2]; [|reflexivity].
  destruct (lift_res (dict_getitem vr "success") w2) as [[ok|e] w3]; [|reflexivity].
  destruct (truthy ok); [reflexivity|].
  by rewrite full_images_agrees.
Qed.

(** [download] of the first part returns. *)
Lemma download_returns py_str set_iter extract_info subprocess_run self url w :
  exists d w',
    download py_str set_iter extract_info subprocess_run self url w = (Ok d, w')
    /\ (is_success d \/ is_failure d).
Proof.
  destruct (video_outcome py_str extract_info self url (announced url w))
    as (vr & w2 & Hrun & _ & _ & [[Hf _] | [Hs _]]).
  - destruct (images_outcome set_iter subprocess_run self url w2)
      as (ir & w3 & Hirun & _ & _ & [[Hf' _] | [Hs' _]]).
    + exists ir, w3. split; [by eapply download_run_images_failure | by right].
    + eexists _, w3. split; [by eapply download_run_images_success|].
      left. unfold is_success. by rewrite lookup_insert_ne.
  - eexists _, w2. split; [by apply download_run_video_success|].
    left. unfold is_success. by rewrite lookup_insert_ne.
Qed.

(** On a plain runtime whose folder creation raises nothing but instances
    of [Exception], [download_twitter_media] of this part is
    [download_twitter_media] of the first. *)
Lemma full_download_twitter_media_agrees url w :
  (forall p f e, (rt_makedirs rt p f).1 = Raise e -> is_exception e = true) ->
  Full.download_twitter_media rt url w
  = download_twitter_media (rt_str rt) (rt_set_iter rt) (rt_extract_info rt)
      (rt_subprocess_run rt) (rt_makedirs rt) url w.
Proof.
  intros Hmk.
  destruct (rt_makedirs rt "twitter_downloads" (fs w)) as [[u|e] fs0] eqn:Hrun.
  - destruct (download_returns (rt_str rt) (rt_set_iter rt) (rt_extract_info rt)
                (rt_subprocess_run rt) (Downloader "twitter_downloads" false) url
                (World fs0 (trace w))) as (d & w' & Hdl & Hd).
    pose proof Hdl as Hfull. rewrite <- full_download_agrees in Hfull.
    destruct (full_entry_run_folder rt url w u fs0 d w' Hrun Hfull) as [Hs Hf].
    destruct (entry_run_folder (rt_str rt) (rt_set_iter rt) (rt_extract_info rt)
                (rt_subprocess_run rt) (rt_makedirs rt) url w u fs0 d w' Hrun Hdl)
      as [Hs' Hf'].
    destruct Hd as [Hok | Hfail].
    + by rewrite (Hs Hok), (Hs' Hok).
    + by rewrite (Hf Hfail), (Hf' Hfail).
  - rewrite (full_entry_run_raise rt url w e (World fs0 (trace w)))
      by (unfold bind, __init__, makedirs, bind; by rewrite Hrun).
    rewrite (Hmk "twitter_downloads" (fs w) e) by (by rewrite Hrun).
    destruct rt_plain as (Hp & _). rewrite Hp. cbn [fs trace].
    symmetry. by eapply entry_run_no_folder.
Qed.

End Agreement.

(** ** The full runtime at the posts *)

Lemma demo_new_files_nonempty :
  listing "twitter_downloads" demo_fs_after_images ∖
  listing "twitter_downloads" (fs demo_world) ≠ ∅.
Proof.
  apply (bool_decide_eq_false_1
           (listing "twitter_downloads" demo_fs_after_images ∖
            listing "twitter_downloads" (fs demo_world) = ∅)).
  vm_compute. reflexivity.
Qed.

(** On the posts nothing is raised but the video tool's [DownloadError]. *)
Lemma demo_runtime_raises_exceptions_only image_tool :
  (forall c t f e, (image_tool c t f).1 = Raise e -> is_exception e = true) ->
  raises_exceptions_only (demo_runtime no_video_tool image_tool).
Proof.
  intros Htool.
  split; [discriminate|]. split; [discriminate|].
  split; [by intros o u f e [= <-]|].
  split; [exact Htool|]. split; discriminate.
Qed.

(** C4, as stated, fails both ways: on the empty post the tool exits with
    code zero, the folder gains nothing, and the failure carries the tool's
    warning, not the "no images found" message; on the post with the link
    the tool exits with code zero, the folder gains an entry, and the
    adapter returns a failure. *)
Lemma images_exit_zero_outcomes_differ :
  (warning_only_tool (gallery_dl_cmd demo_self demo_url) 120 (fs demo_world)
   = (Ok (CompletedProcess 0 "" demo_warning), fs demo_world)
   /\ listing (output_folder demo_self) (fs demo_world) ∖
      listing (output_folder demo_self) (fs demo_world) = ∅
   /\ (Full.download_images_max_quality (demo_runtime no_video_tool warning_only_tool)
         demo_self demo_url demo_world).1
      = Ok demo_warning_failure
   /\ demo_warning_failure !! "error" = Some (VStr demo_warning)
   /\ demo_warning_failure !! "error" ≠ Some (VStr "No images found"))
  /\ (dangling_link_tool (gallery_dl_cmd demo_self demo_url) 120 (fs demo_world)
      = (Ok (CompletedProcess 0 "" ""), <[dangling_link := 22%N]> (fs demo_world))
      /\ listing (output_folder demo_self) (<[dangling_link := 22%N]> (fs demo_world)) ∖
         listing (output_folder demo_self) (fs demo_world) ≠ ∅
      /\ (Full.download_images_max_quality dangling_link_runtime
            demo_self demo_url demo_world).1
         = Ok (failure (FileNotFoundError dangling_link))
      /\ is_failure (failure (FileNotFoundError dangling_link))).
Proof.
  split.
  - split; [reflexivity|]. split; [apply difference_diag_L|].
    split; [by vm_compute|]. split; [reflexivity|]. vm_compute. discriminate.
  - split; [reflexivity|]. split.
    + apply (bool_decide_eq_false_1
               (listing (output_folder demo_self)
                  (<[dangling_link := 22%N]> (fs demo_world)) ∖
                listing (output_folder demo_self) (fs demo_world) = ∅)).
      by vm_compute.
    + split; [by vm_compute | reflexivity].
Qed.

(** The image post, through the theorem of C4. *)
Lemma images_success_needs_exit_zero_new_files_and_sizes_witness :
  (forall X : gset string, elements X ≡ₚ elements X)
  /\ (image_post_tool (gallery_dl_cmd demo_self demo_url) 120 (fs demo_world)).1
     = Ok (CompletedProcess 0 "" "")
  /\ listing "twitter_downloads" demo_fs_after_images ∖
     listing "twitter_downloads" (fs demo_world) ≠ ∅
  /\ exists d w',
       Full.download_images_max_quality (demo_runtime no_video_tool image_post_tool)
         demo_self demo_url demo_world = (Ok d, w')
       /\ is_success d.
Proof.
  split; [exact elements_perm|]. split; [reflexivity|].
  split; [exact demo_new_files_nonempty|].
  exact (proj1 (proj2 (images_success_needs_exit_zero_new_files_and_sizes
                         (demo_runtime no_video_tool image_post_tool)
                         demo_self demo_url demo_world elements_perm)
                  (CompletedProcess 0 "" "") eq_refl eq_refl (fun _ => eq_refl))
           demo_new_files_nonempty (fun _ _ => eq_refl)).
Defined.

(** The empty post, through the theorem of C6: the video tool raises, the
    image tool finds nothing, and [download] returns the failure. *)
Lemma download_returns_when_only_exceptions_are_raised_witness :
  raises_exceptions_only (demo_runtime no_video_tool warning_only_tool)
  /\ rt_print (demo_runtime no_video_tool warning_only_tool)
       (nl ++ "Downloading: " ++ demo_url) = None
  /\ exists d w',
       Full.download (demo_runtime no_video_tool warning_only_tool)
         demo_self demo_url demo_world = (Ok d, w')
       /\ ((is_success d
            /\ (d !! "type" = Some (VStr "video") \/ d !! "type" = Some (VStr "images")))
           \/ (is_failure d /\ exists msg, d !! "error" = Some (VStr msg))).
Proof.
  assert (Hrt : raises_exceptions_only (demo_runtime no_video_tool warning_only_tool))
    by (apply demo_runtime_raises_exceptions_only; discriminate).
  split; [exact Hrt|]. split; [reflexivity|].
  exact (download_returns_when_only_exceptions_are_raised
           (demo_runtime no_video_tool warning_only_tool)
           demo_self demo_url demo_world Hrt eq_refl).
Defined.

Lemma dangling_link_run :
  Full.download_images_max_quality dangling_link_runtime demo_self demo_url demo_world
  = (Ok (failure (FileNotFoundError dangling_link)),
     World (<[dangling_link := 22%N]> (fs demo_world))
           [EvSubprocess (gallery_dl_cmd demo_self demo_url)]).
Proof. by vm_compute. Qed.

(** The post with the link, through the theorem of C7. *)
Lemma images_failure_message_is_exception_text_or_stderr_witness :
  Full.download_images_max_quality dangling_link_runtime demo_self demo_url demo_world
  = (Ok (failure (FileNotFoundError dangling_link)),
     World (<[dangling_link := 22%N]> (fs demo_world))
           [EvSubprocess (gallery_dl_cmd demo_self demo_url)])
  /\ is_failure (failure (FileNotFoundError dangling_link))
  /\ let tool :=
       rt_subprocess_run dangling_link_runtime (gallery_dl_cmd demo_self demo_url) 120
         (fs demo_world) in
     let new_files :=
       listing (output_folder demo_self) tool.2 ∖
       listing (output_folder demo_self) (fs demo_world) in
     match (Full.images_body dangling_link_runtime demo_self demo_url demo_world).1 with
     | Raise e =>
         failure (FileNotFoundError dangling_link) !! "error" = Some (VStr (exn_str e))
         /\ ((verbose demo_self = true
              /\ rt_print dangling_link_runtime "  Downloading images..." = Some e)
             \/ tool.1 = Raise e
             \/ (exists cp p,
                   tool.1 = Ok cp /\ returncode cp = 0
                   /\ p ∈ rt_set_iter dangling_link_runtime new_files
                   /\ Full.stat dangling_link_runtime p tool.2 = Raise e))
     | Ok _ =>
         exists cp,
           tool.1 = Ok cp
           /\ (stderr cp ≠ "" ->
               failure (FileNotFoundError dangling_link) !! "error"
               = Some (VStr (stderr cp)))
           /\ (stderr cp = "" ->
               failure (FileNotFoundError dangling_link) !! "error"
               = Some (VStr "No images found"))
     end.
Proof.
  split; [exact dangling_link_run|]. split; [reflexivity|].
  exact (images_failure_message_is_exception_text_or_stderr dangling_link_runtime
           demo_self demo_url demo_world _ _ dangling_link_run eq_refl).
Defined.

Lemma dangling_link_entry_run :
  Full.download_twitter_media dangling_link_runtime demo_url demo_world
  = (Ok (None,
         Some (error_mark ++
               "[Errno 2] No such file or directory: 'twitter_downloads/twitter_1_1.jpg'")),
     World (<[dangling_link := 22%N]> (fs demo_world))
           [demo_banner; EvExtractInfo demo_url;
            EvSubprocess (gallery_dl_cmd demo_self demo_url)]).
Proof. by vm_compute. Qed.

(** The post with the link, through the theorem of X7. *)
Lemma download_twitter_media_returns_one_side_witness :
  raises_exceptions_only (demo_runtime no_video_tool warning_only_tool)
  /\ (forall m, rt_print (demo_runtime no_video_tool warning_only_tool) m = None)
  /\ (exists r w',
        Full.download_twitter_media (demo_runtime no_video_tool warning_only_tool)
          demo_url demo_world = (Ok r, w'))
  /\ Full.download_twitter_media dangling_link_runtime demo_url demo_world
     = (Ok (None,
            Some (error_mark ++
                  "[Errno 2] No such file or directory: 'twitter_downloads/twitter_1_1.jpg'")),
        World (<[dangling_link := 22%N]> (fs demo_world))
              [demo_banner; EvExtractInfo demo_url;
               EvSubprocess (gallery_dl_cmd demo_self demo_url)])
  /\ ((exists d,
         (None,
          Some (error_mark ++
                "[Errno 2] No such file or directory: 'twitter_downloads/twitter_1_1.jpg'"))
         = (Some d, None)
         /\ is_success d /\ d !! "url" = Some (VStr demo_url))
      \/ (exists rest,
            (None : option dict,
             Some (error_mark ++
                   "[Errno 2] No such file or directory: 'twitter_downloads/twitter_1_1.jpg'"))
            = (None, Some (error_mark ++ rest)))).
Proof.
  assert (Hrt : raises_exceptions_only (demo_runtime no_video_tool warning_only_tool))
    by (apply demo_runtime_raises_exceptions_only; discriminate).
  split; [exact Hrt|]. split; [reflexivity|].
  split.
  - exact (proj1 (download_twitter_media_returns_one_side
                    (demo_runtime no_video_tool warning_only_tool) demo_url demo_world)
             Hrt (fun _ => eq_refl)).
  - split; [exact dangling_link_entry_run|].
    exact (proj2 (download_twitter_media_returns_one_side
                    dangling_link_runtime demo_url demo_world)
             _ _ dangling_link_entry_run).
Defined.

(** The post with the link, through the theorem of X9. *)
Lemma download_twitter_media_failure_message_witness :
  (forall s, rt_str dangling_link_runtime (VStr s) = s)
  /\ rt_makedirs dangling_link_runtime "twitter_downloads" (fs demo_world)
     = (Ok tt, fs demo_world)
  /\ rt_print dangling_link_runtime (nl ++ "Downloading: " ++ demo_url) = None
  /\ Full.download_twitter_media dangling_link_runtime demo_url demo_world
     = (Ok (None,
            Some (error_mark ++
                  "[Errno 2] No such file or directory: 'twitter_downloads/twitter_1_1.jpg'")),
        World (<[dangling_link := 22%N]> (fs demo_world))
              [demo_banner; EvExtractInfo demo_url;
               EvSubprocess (gallery_dl_cmd demo_self demo_url)])
  /\ exists vr w2,
       Full.download_video_max_quality dangling_link_runtime demo_self demo_url
         (announced demo_url (World (fs demo_world) (trace demo_world)))
       = (Ok vr, w2)
       /\ is_failure vr
       /\ let tool :=
            rt_subprocess_run dangling_link_runtime (gallery_dl_cmd demo_self demo_url)
              120 (fs w2) in
          let new_files :=
            listing "twitter_downloads" tool.2 ∖ listing "twitter_downloads" (fs w2) in
          let msg :=
            error_mark ++
            "[Errno 2] No such file or directory: 'twitter_downloads/twitter_1_1.jpg'" in
          (exists e, tool.1 = Raise e /\ msg = error_mark ++ exn_str e)
          \/ (exists cp p e,
                tool.1 = Ok cp /\ returncode cp = 0
                /\ p ∈ rt_set_iter dangling_link_runtime new_files
                /\ Full.stat dangling_link_runtime p tool.2 = Raise e
                /\ msg = error_mark ++ exn_str e)
          \/ (exists cp,
                tool.1 = Ok cp
                /\ msg = error_mark ++
                         if String.eqb (stderr cp) "" then "No images found"
                         else stderr cp).
Proof.
  split; [reflexivity|]. split; [reflexivity|]. split; [reflexivity|].
  split; [exact dangling_link_entry_run|].
  exact (download_twitter_media_failure_message dangling_link_runtime demo_url
           demo_world tt (fs demo_world) _ _
           (fun _ => eq_refl) eq_refl eq_refl dangling_link_entry_run).
Defined.

(** * The page *)

Lemma mod3_in_range idx n : (idx < n)%nat -> (idx mod 3 < Nat.min n 3)%nat.
Proof.
  intros Hlt. pose proof (Nat.mod_upper_bound idx 3 ltac:(lia)) as Hmod.
  destruct (le_lt_dec 3 n) as [Hge|Hsmall]; [lia|].
  rewrite Nat.mod_small by lia. lia.
Qed.

Lemma list_getitem_seq m k : (k < m)%nat -> list_getitem (seq 0 m) k = Ok k.
Proof.
  intros Hk. unfold list_getitem. by rewrite lookup_seq_lt.
Qed.

Section PageFacts.

Variable py_str : pyval -> string.
Variable set_iter : gset string -> list string.
Hypothesis set_iter_perm : forall X, set_iter X ≡ₚ elements X.
Variable extract_info :
  ydl_options -> string -> filesystem -> res (option dict) * filesystem.
Variable subprocess_run :
  list string -> Z -> filesystem -> res completed_process * filesystem.
Variable os_makedirs : string -> filesystem -> res unit * filesystem.

Local Abbreviation video := (download_video_max_quality py_str extract_info).
Local Abbreviation images := (download_images_max_quality set_iter subprocess_run).
Local Abbreviation download' := (download py_str set_iter extract_info subprocess_run).
Local Abbreviation entry :=
  (download_twitter_media py_str set_iter extract_info subprocess_run os_makedirs).
Local Abbreviation click :=
  (fetch_media_clicked py_str set_iter extract_info subprocess_run os_makedirs).

(** The preview loop never leaves the columns it was given. *)
Lemma preview_loop_run n items idx p :
  (idx + length items <= n)%nat ->
  preview_loop (seq 0 (Nat.min n 3)) idx items p =
  (Ok tt,
   Page (page_world p)
        (page_calls p
         ++ imap (fun j x => StWith ((idx + j) mod 3) (StImage x)) items)).
Proof.
  revert idx p. induction items as [|x items IH]; intros idx p Hlen.
  - cbn. rewrite app_nil_r. by destruct p.
  - cbn [preview_loop length] in *. unfold ui_bind, ui_lift_res.
    rewrite list_getitem_seq by (apply mod3_in_range; lia).
    unfold st at 1. rewrite IH by lia. cbn [page_world page_calls].
    rewrite <- app_assoc. cbn [imap app]. rewrite Nat.add_0_r.
    do 4 f_equal. apply imap_ext. intros j y _. unfold compose.
    by replace (idx + S j)%nat with (S idx + j)%nat by lia.
Qed.

(** X15: on a list of [n] files, [n] not zero, the preview asks for
    [min(n, 3)] columns and puts the [i]-th image in column [i mod 3],
    which is always one of them: no column index is out of range.  It
    touches neither the file system nor the log. *)
Theorem page_preview_layout :
  forall p l,
    l ≠ [] ->
    page_preview (VList l) p =
    (Ok tt,
     Page (page_world p)
          (page_calls p
           ++ StColumnsN (Nat.min (length l) 3)
              :: imap (fun i y => StWith (i mod 3) (StImage y)) l))
    /\ forall i, (i < length l)%nat -> (i mod 3 < Nat.min (length l) 3)%nat.
Proof.
  intros p l Hne. split; [|intros i Hi; by apply mod3_in_range].
  destruct l as [|x l]; [contradiction|].
  unfold page_preview. unfold ui_bind at 1. unfold ui_lift_res at 1, py_len.
  unfold ui_bind at 1.
  assert (Hmin : exists k, Nat.min (length (x :: l)) 3 = S k)
    by (cbn [length]; destruct (length l) as [|[|?]]; eexists; reflexivity).
  destruct Hmin as (k & Hmin).
  assert (Hcols : st_columns_n (Nat.min (length (x :: l)) 3) p
                  = (Ok (seq 0 (Nat.min (length (x :: l)) 3)),
                     Page (page_world p)
                          (page_calls p
                           ++ [StColumnsN (Nat.min (length (x :: l)) 3)]))).
  { rewrite Hmin. reflexivity. }
  rewrite Hcols. unfold ui_bind, ui_lift_res, py_iter.
  rewrite (preview_loop_run (length (x :: l))) by (cbn; lia).
  cbn [page_world page_calls]. by rewrite <- app_assoc.
Qed.

(** The video branch on a record whose file name is the text [path]. *)
Lemma page_video_run result show_preview p path :
  result !! "filename" = Some (VStr path) ->
  path ≠ "" ->
  page_video py_str result show_preview p =
  match fs (page_world p) !! path with
  | Some n =>
      (Ok tt,
       Page (World (delete path (fs (page_world p))) (trace (page_world p)))
            (page_calls p
             ++ StSuccess ("âœ… Video loaded successfully! (" ++
                           py_str (dict_get result "resolution") ++ " â€¢ " ++
                           py_str (dict_get result "size_mb") ++ " MB)")
                :: (if show_preview then [StVideo (Blob path n)] else [])
                ++ [StColumns [2; 1];
                    StWith 1 (StDownloadButton "Download Video" (Blob path n)
                                (basename path) "video/mp4" None)]))
  | None => (Ok tt, p)
  end.
Proof.
  intros Hname Hne.
  assert (Hget : dict_get result "filename" = VStr path)
    by (unfold dict_get; by rewrite Hname).
  unfold page_video. cbn zeta. rewrite !Hget.
  assert (Htruthy : truthy (VStr path) = true).
  { cbn [truthy]. destruct (String.eqb path "") eqn:E; [|reflexivity].
    apply String.eqb_eq in E. contradiction. }
  rewrite Htruthy. unfold ui_bind at 1. unfold run at 1, os_path_exists, path_exists.
  destruct (fs (page_world p) !! path) as [n|] eqn:Efile.
  - rewrite bool_decide_eq_true_2 by eauto.
    unfold ui_bind, st, ui_lift_res, fspath, run, read_binary, os_remove, ui_ret.
    repeat (progress (cbn [page_world page_calls fs trace]; rewrite ?Efile)).
    destruct show_preview; cbn [page_world page_calls fs trace];
      rewrite ?Efile; rewrite <- !app_assoc; reflexivity.
  - rewrite bool_decide_eq_false_2 by (intros [? ?]; congruence).
    unfold ui_ret. by destruct p.
Qed.

(** ** A click, end to end *)

Lemma click_run url show_preview p result error_msg w' :
  url ≠ "" ->
  entry url (page_world p) = (Ok (result, error_msg), w') ->
  click url show_preview p =
  match error_msg with
  | Some msg =>
      if truthy (VStr msg) then st (StError msg)
      else page_result py_str result show_preview
  | None => page_result py_str result show_preview
  end (Page w' (page_calls p
                ++ [StSpinner "Fetching and downloading your media... Please wait."])).
Proof.
  intros Hurl Hentry. unfold fetch_media_clicked.
  assert (Htruthy : truthy (VStr url) = true).
  { cbn [truthy]. destruct (String.eqb url "") eqn:E; [|reflexivity].
    apply String.eqb_eq in E. contradiction. }
  rewrite Htruthy. unfold ui_bind at 1. unfold st at 1.
  unfold ui_bind at 1. unfold run at 1. cbn [page_world page_calls].
  rewrite Hentry. reflexivity.
Qed.

Lemma entry_message_marked url w msg w' :
  entry url w = (Ok (None, Some msg), w') ->
  exists rest, msg = error_mark ++ rest.
Proof.
  intros Hentry.
  destruct (os_makedirs "twitter_downloads" (fs w)) as [[u|e] fs0] eqn:Hmk.
  - destruct (download_world py_str set_iter extract_info subprocess_run
                (Downloader "twitter_downloads" false) url (World fs0 (trace w)))
      as (d & Hd & Hcases).
    assert (Hrun : exists w2,
               download py_str set_iter extract_info subprocess_run
                 (Downloader "twitter_downloads" false) url (World fs0 (trace w))
               = (Ok d, w2))
      by (destruct Hcases as [[_ H] | [_ H]]; eexists; exact H).
    destruct Hrun as (w2 & Hrun).
    destruct (entry_run_folder py_str set_iter extract_info subprocess_run os_makedirs
                url w u fs0 d w2 Hmk Hrun) as [Hok Hfail].
    destruct Hd as [Hs | Hf].
    + rewrite (Hok Hs) in Hentry. discriminate Hentry.
    + rewrite (Hfail Hf) in Hentry. injection Hentry as <- _. by eexists.
  - rewrite (entry_run_no_folder py_str set_iter extract_info subprocess_run
               os_makedirs url w e fs0 Hmk) in Hentry.
    injection Hentry as <- _. by eexists.
Qed.

(** X16: when [download_twitter_media] returns a message, a click shows the
    spinner and that message as an error, and nothing else: the page does
    not raise and deletes no file, so what the tools left stays on disk. *)
Theorem click_failure_shows_error_only :
  forall url show_preview p msg w',
    url ≠ "" ->
    download_twitter_media py_str set_iter extract_info subprocess_run os_makedirs
      url (page_world p) = (Ok (None, Some msg), w') ->
    fetch_media_clicked py_str set_iter extract_info subprocess_run os_makedirs
      url show_preview p =
    (Ok tt,
     Page w' (page_calls p
              ++ [StSpinner "Fetching and downloading your media... Please wait.";
                  StError msg])).
Proof.
  intros url show_preview p msg w' Hurl Hentry.
  rewrite (click_run url show_preview p None (Some msg) w' Hurl Hentry).
  destruct (entry_message_marked url (page_world p) msg w' Hentry) as (rest & ->).
  assert (Htruthy : truthy (VStr (error_mark ++ rest)) = true) by reflexivity.
  rewrite Htruthy. unfold st. cbn [page_world page_calls].
  by rewrite <- app_assoc.
Qed.

Lemma append_slash_nonempty a b : a ++ "/" ++ b ≠ "".
Proof. destruct a; discriminate. Qed.

(** A click on a post for which the video tool returns an id and an
    extension: the page goes to the video branch with the adapter's record. *)
Lemma click_video_run url show_preview p u fs0 info fs1 id ext :
  url ≠ "" ->
  os_makedirs "twitter_downloads" (fs (page_world p)) = (Ok u, fs0) ->
  let self := Downloader "twitter_downloads" false in
  extract_info (ydl_opts self) url fs0 = (Ok (Some info), fs1) ->
  info !! "id" = Some id ->
  info !! "ext" = Some ext ->
  exists d tr,
    d !! "filename" = Some (VStr (video_filename py_str self info id ext))
    /\ click url show_preview p =
       page_video py_str d show_preview
         (Page (World fs1 tr)
               (page_calls p
                ++ [StSpinner "Fetching and downloading your media... Please wait."])).
Proof.
  intros Hurl Hmk self Htool Hid Hext.
  set (w0 := World fs0 (trace (page_world p))).
  pose proof (video_run py_str extract_info self url (announced url w0)) as Hrun.
  cbn [fs announced w0] in Hrun. rewrite Htool in Hrun. cbn [fst snd] in Hrun.
  rewrite Hid, Hext in Hrun.
  match type of Hrun with _ = (Ok ?r, ?w) => set (vr := r) in *; set (w2 := w) in * end.
  assert (Hs : is_success vr) by reflexivity.
  pose proof (download_run_video_success py_str set_iter extract_info subprocess_run
                self url w0 vr w2 Hrun Hs) as Hdl.
  destruct (entry_run_folder py_str set_iter extract_info subprocess_run os_makedirs
              url (page_world p) u fs0 _ _ Hmk Hdl) as [Hok _].
  assert (Hs' : is_success (<["url" := VStr url]> vr))
    by (unfold is_success; by rewrite lookup_insert_ne).
  exists (<["url" := VStr url]> vr), (trace w2).
  split; [by rewrite lookup_insert_ne|].
  rewrite (click_run url show_preview p _ _ _ Hurl (Hok Hs')).
  unfold page_result.
  rewrite bool_decide_eq_false_2
    by (intros Hempty; rewrite Hempty in Hs'; discriminate Hs').
  cbn [negb].
  assert (Htype : eq_str (dict_get (<["url" := VStr url]> vr) "type") "video" = true)
    by reflexivity.
  by rewrite Htype.
Qed.

(** X17: a click on a post for which the video tool returns an id and an
    extension but leaves no file under the name the adapter builds shows the
    spinner and nothing more, no success and no error, and deletes nothing. *)
Theorem click_video_without_file_is_silent :
  forall url show_preview p u fs0 info fs1 id ext,
    url ≠ "" ->
    os_makedirs "twitter_downloads" (fs (page_world p)) = (Ok u, fs0) ->
    let self := Downloader "twitter_downloads" false in
    extract_info (ydl_opts self) url fs0 = (Ok (Some info), fs1) ->
    info !! "id" = Some id ->
    info !! "ext" = Some ext ->
    fs1 !! video_filename py_str self info id ext = None ->
    exists tr,
      fetch_media_clicked py_str set_iter extract_info subprocess_run os_makedirs
      url show_preview p =
      (Ok tt,
       Page (World fs1 tr)
            (page_calls p
             ++ [StSpinner "Fetching and downloading your media... Please wait."])).
Proof.
  intros url show_preview p u fs0 info fs1 id ext Hurl Hmk self Htool Hid Hext Hfile.
  destruct (click_video_run url show_preview p u fs0 info fs1 id ext
              Hurl Hmk Htool Hid Hext) as (d & tr & Hname & Hclick).
  exists tr. rewrite Hclick.
  rewrite (page_video_run d show_preview _ _ Hname)
    by apply append_slash_nonempty.
  cbn [page_world fs]. fold self. by rewrite Hfile.
Qed.

(** X18: a click on a post whose video file is where the adapter looks shows
    the success line, the video when the preview is on and one download
    button holding the bytes read and the base name of the file; it then
    deletes that file and no other. *)
Theorem click_video_serves_then_deletes :
  forall url show_preview p u fs0 info fs1 id ext n,
    url ≠ "" ->
    os_makedirs "twitter_downloads" (fs (page_world p)) = (Ok u, fs0) ->
    let self := Downloader "twitter_downloads" false in
    let path := video_filename py_str self info id ext in
    extract_info (ydl_opts self) url fs0 = (Ok (Some info), fs1) ->
    info !! "id" = Some id ->
    info !! "ext" = Some ext ->
    fs1 !! path = Some n ->
    exists tr msg,
      fetch_media_clicked py_str set_iter extract_info subprocess_run os_makedirs
      url show_preview p =
      (Ok tt,
       Page (World (delete path fs1) tr)
            (page_calls p
             ++ [StSpinner "Fetching and downloading your media... Please wait.";
                 StSuccess msg]
             ++ (if show_preview then [StVideo (Blob path n)] else [])
             ++ [StColumns [2; 1];
                 StWith 1 (StDownloadButton "Download Video" (Blob path n)
                             (basename path) "video/mp4" None)])).
Proof.
  intros url show_preview p u fs0 info fs1 id ext n Hurl Hmk self path
    Htool Hid Hext Hfile.
  destruct (click_video_run url show_preview p u fs0 info fs1 id ext
              Hurl Hmk Htool Hid Hext) as (d & tr & Hname & Hclick).
  exists tr. eexists. rewrite Hclick.
  rewrite (page_video_run d show_preview _ _ Hname)
    by apply append_slash_nonempty.
  cbn [page_world page_calls fs trace]. fold self. fold path. rewrite Hfile.
  rewrite <- !app_assoc. reflexivity.
Qed.

End PageFacts.

(** ** The page at the posts *)

(** The files of the image record previewed, through the theorem of X15. *)
Lemma page_preview_layout_witness :
  [ "twitter_downloads/twitter_1_1.jpg"; "twitter_downloads/twitter_1_2.jpg" ] ≠ []
  /\ page_preview
       (VList [ "twitter_downloads/twitter_1_1.jpg"; "twitter_downloads/twitter_1_2.jpg" ])
       (Page (World demo_fs_after_images []) [])
     = (Ok tt,
        Page (World demo_fs_after_images [])
             ([] ++ StColumnsN 2
                 :: [ StWith 0 (StImage "twitter_downloads/twitter_1_1.jpg");
                      StWith 1 (StImage "twitter_downloads/twitter_1_2.jpg") ]))
  /\ forall i, (i < 2)%nat -> (i mod 3 < 2)%nat.
Proof.
  split; [discriminate|].
  exact (page_preview_layout
           (Page (World demo_fs_after_images []) [])
           [ "twitter_downloads/twitter_1_1.jpg"; "twitter_downloads/twitter_1_2.jpg" ]
           ltac:(discriminate)).
Defined.

Lemma demo_url_nonempty : demo_url ≠ "".
Proof. discriminate. Qed.

Lemma demo_entry_warning_run :
  download_twitter_media str_scalar elements no_video_tool warning_only_tool
    makedirs_present demo_url demo_world
  = (Ok (None, Some (error_mark ++ demo_warning)), demo_world_after_warning).
Proof. vm_compute. reflexivity. Qed.

(** The empty post clicked, through the theorem of X16. *)
Lemma click_failure_shows_error_only_witness :
  demo_url ≠ ""
  /\ download_twitter_media str_scalar elements no_video_tool warning_only_tool
       makedirs_present demo_url demo_world
     = (Ok (None, Some (error_mark ++ demo_warning)), demo_world_after_warning)
  /\ fetch_media_clicked str_scalar elements no_video_tool warning_only_tool
       makedirs_present demo_url true (Page demo_world [])
     = (Ok tt,
        Page demo_world_after_warning
             ([] ++ [spinner_call; StError (error_mark ++ demo_warning)])).
Proof.
  split; [exact demo_url_nonempty|]. split; [exact demo_entry_warning_run|].
  exact (click_failure_shows_error_only str_scalar elements no_video_tool
           warning_only_tool makedirs_present demo_url true (Page demo_world [])
           _ _ demo_url_nonempty demo_entry_warning_run).
Defined.

(** The post without a height clicked, through the theorem of X17. *)
Lemma click_video_without_file_is_silent_witness :
  demo_url ≠ ""
  /\ demo_info_without_height !! "id" = Some (VStr "42")
  /\ demo_info_without_height !! "ext" = Some (VStr "mp4")
  /\ (<["twitter_downloads/42_NAp.mp4" := 131072%N]> (fs demo_world))
       !! "twitter_downloads/42_Nonep.mp4" = None
  /\ exists tr,
       fetch_media_clicked str_scalar elements video_without_height_tool
         image_post_tool makedirs_present demo_url true (Page demo_world [])
       = (Ok tt,
          Page (World (<["twitter_downloads/42_NAp.mp4" := 131072%N]> (fs demo_world)) tr)
               ([] ++ [spinner_call])).
Proof.
  split; [exact demo_url_nonempty|]. split; [reflexivity|]. split; [reflexivity|].
  split; [vm_compute; reflexivity|].
  apply (click_video_without_file_is_silent str_scalar elements
           video_without_height_tool image_post_tool makedirs_present
           demo_url true (Page demo_world []) tt (fs demo_world)
           demo_info_without_height _ (VStr "42") (VStr "mp4"));
    [exact demo_url_nonempty | reflexivity | reflexivity | reflexivity | reflexivity
    | vm_compute; reflexivity].
Defined.

(** The video post clicked, through the theorem of X18. *)
Lemma click_video_serves_then_deletes_witness :
  demo_url ≠ ""
  /\ fs demo_world_after_video !! "twitter_downloads/42_720p.mp4" = Some 131072%N
  /\ basename "twitter_downloads/42_720p.mp4" = "42_720p.mp4"
  /\ exists tr msg,
       fetch_media_clicked str_scalar elements video_post_tool image_post_tool
         makedirs_present demo_url false (Page demo_world [])
       = (Ok tt,
          Page (World (delete "twitter_downloads/42_720p.mp4"
                         (<["twitter_downloads/42_720p.mp4" := 131072%N]> (fs demo_world)))
                      tr)
               ([] ++ [spinner_call; StSuccess msg] ++ []
                ++ [StColumns [2; 1];
                    StWith 1 (StDownloadButton "Download Video"
                                (Blob "twitter_downloads/42_720p.mp4" 131072)
                                (basename "twitter_downloads/42_720p.mp4")
                                "video/mp4" None)])).
Proof.
  split; [exact demo_url_nonempty|]. split; [vm_compute; reflexivity|].
  split; [reflexivity|].
  apply (click_video_serves_then_deletes str_scalar elements
           video_post_tool image_post_tool makedirs_present
           demo_url false (Page demo_world []) tt (fs demo_world)
           demo_info _ (VStr "42") (VStr "mp4") 131072%N);
    [exact demo_url_nonempty | reflexivity | reflexivity | reflexivity | reflexivity
    | vm_compute; reflexivity].
Defined.

